(** * PrizePicker: the odds normalizer and the slip-selection engine

    A shallow embedding of [calculate_novig] (scraper.py, fanduelScraper.py)
    and of [get_slips] / [dashboard] (find_bets.py).

    Numbers.  Python floats are modelled as exact rationals ([Q]); the values
    NaN and infinity have no counterpart, except where a conversion with
    [float()] may produce NaN (see [pyfloat]).  [round(x, 2)] is rounding to
    the nearest hundredth, ties to even.  Python's [int] is [Z].

    Exceptions.  Code that can raise returns a [result]; [try/except] is a
    match on it.

    Containers.  A Python [set] of strings is a [gset string], a [dict] is a
    [gmap]; lists are lists. *)

From Stdlib Require Import ZArith QArith Qround Qabs Lia Lqa Ascii.
From stdpp Require Import gmap strings list sorting.
From Equations Require Import Equations.

Local Open Scope Z_scope.
#[local] Set Warnings "-clear-no-such-hyp".

(** ** Exceptions *)

Inductive PyExn : Set :=
  | ZeroDivisionError
  | ValueError.

Inductive result (A : Type) : Type :=
  | Ok (a : A)
  | Raise (e : PyExn).
Arguments Ok {A} a.
Arguments Raise {A} e.

(** Sequencing: [x ← r; k] runs [k] on the value of [r] and passes an
    exception of [r] on. *)
#[global] Instance result_bind : MBind result := fun A B k r =>
  match r with
  | Ok a => k a
  | Raise e => Raise e
  end.

(** Python's [a / b] on numbers. *)
Definition truediv (a b : Q) : result Q :=
  if Qeq_bool b 0 then Raise ZeroDivisionError else Ok (a / b)%Q.

(** ** The odds normalizer (scraper.py and fanduelScraper.py, same text) *)

Module Novig.

Definition get_implied (american_odds : Z) : result Q :=
  if 0 <? american_odds
  then truediv 100 (inject_Z (american_odds + 100))
  else truediv (inject_Z (Z.abs american_odds))
               (inject_Z (Z.abs american_odds + 100)).

(** The body of the [try] block. *)
Definition novig_body (over_odds under_odds : Z) : result (Q * Q) :=
  prob_over ← get_implied over_odds;
  prob_under ← get_implied under_odds;
  let market_sum := (prob_over + prob_under)%Q in
  fair_over ← truediv prob_over market_sum;
  fair_under ← truediv prob_under market_sum;
  Ok (fair_over, fair_under).

Definition calculate_novig (over_odds under_odds : Z) : result (Q * Q) :=
  match novig_body over_odds under_odds with
  | Ok p => Ok p
  | Raise ZeroDivisionError => Ok (0%Q, 0%Q)
  | Raise e => Raise e
  end.

(** The implied probability in the words of the specification: positive
    odds [o] give [100 / (o + 100)], the others [|o| / (|o| + 100)]. *)
Definition implied_spec (o : Z) : Q :=
  if 0 <? o then (100 / inject_Z (o + 100))%Q
  else (inject_Z (Z.abs o) / inject_Z (Z.abs o + 100))%Q.

End Novig.

(** ** Numbers and strings of the Python runtime *)

(** [round(x)] to the nearest integer, ties to the even one. *)
Definition round_half_even (x : Q) : Z :=
  let f := Qfloor x in
  match (x - inject_Z f ?= 1 # 2)%Q with
  | Lt => f
  | Gt => f + 1
  | Eq => if Z.even f then f else f + 1
  end.

(** [round(x, 2)]. *)
Definition round2 (x : Q) : Q := Qmake (round_half_even (x * 100)) 100.

(** [sum(xs)]. *)
Definition Qsum (xs : list Q) : Q := foldr Qplus 0%Q xs.

(** A float as [float()] returns it: a number, or NaN, on which every
    comparison is false. *)
Inductive pyfloat : Type :=
  | Fin (q : Q)
  | NaN.

(** The number of a float known not to be NaN. *)
Definition fval (x : pyfloat) : Q :=
  match x with
  | Fin q => q
  | NaN => 0%Q
  end.

(** [x > y] for a float [x] and a number [y]. *)
Definition fgt (x : pyfloat) (y : Q) : bool :=
  match x with
  | Fin q => negb (Qle_bool q y)
  | NaN => false
  end.

(** [sub in s] on strings. *)
Fixpoint contains (sub s : string) : bool :=
  String.prefix sub s ||
  match s with
  | EmptyString => false
  | String _ s' => contains sub s'
  end.

(** [s.split(sep)] for a separator that is not empty.  [skip] counts the
    characters of a separator that are still to be dropped, [cur] is the
    piece read so far. *)
Fixpoint split_go (sep : string) (skip : nat) (cur s : string) : list string :=
  match s with
  | EmptyString => [cur]
  | String c s' =>
      match skip with
      | S k => split_go sep k cur s'
      | O =>
          if String.prefix sep s
          then cur :: split_go sep (String.length sep - 1) EmptyString s'
          else split_go sep 0 (cur +:+ String c EmptyString) s'
      end
  end.

Definition split (sep s : string) : list string := split_go sep 0 EmptyString s.

(** [float()] and [int()] on plain decimal text: an optional sign, digits,
    and for [float()] an optional point followed by digits, or the text nan.
    The examples below are run with these two. *)
Definition digit_of (c : ascii) : option Z :=
  let n := Z.of_nat (nat_of_ascii c) in
  if (48 <=? n) && (n <=? 57) then Some (n - 48) else None.

Fixpoint read_digits (s : string) (num : Z) (den : positive) (after_point : bool)
  : option Q :=
  match s with
  | EmptyString => Some (Qmake num den)
  | String c s' =>
      match digit_of c with
      | Some d =>
          read_digits s' (10 * num + d) (if after_point then 10 * den else den)%positive
            after_point
      | None =>
          if bool_decide (c = "."%char) && negb after_point
          then read_digits s' num den true
          else None
      end
  end.

Definition read_number (s : string) : option Q :=
  match s with
  | EmptyString => None
  | String "-"%char s' =>
      match s' with
      | EmptyString => None
      | _ => Qopp <$> read_digits s' 0 1 false
      end
  | _ => read_digits s 0 1 false
  end.

Definition decimal_float (s : string) : result pyfloat :=
  if bool_decide (s = "nan") then Ok NaN
  else match read_number s with
       | Some q => Ok (Fin q)
       | None => Raise ValueError
       end.

Definition decimal_int (s : string) : result Z :=
  if contains "." s then Raise ValueError
  else match read_number s with
       | Some q => Ok (Qnum q)
       | None => Raise ValueError
       end.

(** [l.sort(key=key, reverse=True)]: descending by key, and stable, equal
    keys keep the order they came in. *)
Fixpoint insert_desc {A : Type} (key : A -> Q) (x : A) (l : list A) : list A :=
  match l with
  | [] => [x]
  | y :: l' =>
      if Qle_bool (key y) (key x) then x :: y :: l' else y :: insert_desc key x l'
  end.

Definition sort_desc {A : Type} (key : A -> Q) (l : list A) : list A :=
  foldr (insert_desc key) [] l.

(** [itertools.combinations(pool, r)] for [r >= 0], in the order the iterator
    yields them. *)
Fixpoint combinations {A : Type} (r : nat) (pool : list A) : list (list A) :=
  match r with
  | O => [[]]
  | S r' =>
      match pool with
      | [] => []
      | x :: pool' => map (cons x) (combinations r' pool') ++ combinations r pool'
      end
  end.

(** [random.sample(population, k)] once [0 <= k <= len(population)] is known:
    [k] draws without replacement, the [i]-th at the position the random
    source names among the elements still left. *)
Fixpoint draw {A : Type} (k : nat) (choices : list nat) (population : list A) : list A :=
  match k with
  | O => []
  | S k' =>
      let j := (hd 0%nat choices `mod` length population)%nat in
      match population !! j with
      | Some x => x :: draw k' (tl choices) (delete j population)
      | None => []
      end
  end.

Definition sample {A : Type} (choices : list nat) (population : list A) (k : Z)
  : result (list A) :=
  if (k <? 0) || (Z.of_nat (length population) <? k)
  then Raise ValueError
  else Ok (draw (Z.to_nat k) choices population).

(** ** The slip-selection engine (find_bets.py) *)

Module FindBets.

(** Break-even win percentages per slip style and size. *)
Definition THRESHOLDS : gmap string (gmap Z Q) :=
  {[ "power" := {[ 2 := 57.74%Q; 3 := 55.05%Q; 4 := 56.23%Q;
                   5 := 54.93%Q; 6 := 54.66%Q ]};
     "flex"  := {[ 3 := 57.74%Q; 4 := 55.04%Q; 5 := 54.26%Q;
                   6 := 54.21%Q ]} ]}.

(** [THRESHOLDS.get(style, {}).get(target_size, 54.21)] *)
Definition threshold (style : string) (target_size : Z) : Q :=
  default 54.21%Q (default ∅ (THRESHOLDS !! style) !! target_size).

Definition min_candidate_prob : Q := 53.5%Q.

(** One row of a loaded table, each cell as the loop reads it: the text
    columns after [str(row.get(col, default))], the two percentages as the
    cell handed to [float()]. *)
Record Row : Type := {
  row_FanDuel_Line : string;
  row_PrizePicks_Line : string;
  row_FD_Fair_Over : string;
  row_FD_Fair_Under : string;
  row_Team : string;
  row_Player : string;
  row_Prop_Type : string;
  row_Sport : string
}.

(** A table as [pd.read_csv] returns it. *)
Record Table : Type := {
  has_Sport_column : bool;
  rows : list Row
}.

(** A file matched by the glob: its path and what [pd.read_csv] made of it,
    [None] when reading raised. *)
Record CsvFile : Type := {
  path : string;
  content : option Table
}.

Inductive Direction : Set := OVER | UNDER.

(** The dictionary [bet_info].  Its entries Initials and Player_Image only
    serve the page and are left out. *)
Record Candidate : Type := {
  id : string;
  Player : string;
  Team : string;
  Position : string;
  Sport : string;
  Prop_Type : string;
  FanDuel_Line : Q;
  PrizePicks_Line : Q;
  Line_Diff : Q;
  Bet_Direction : Direction;
  Fair_Win_Pct : Q;
  Edge : Q
}.

(** The dictionary [slip]; [Is_Fallback] is false where the code leaves the
    key out.  [Leg_Ids] stays a set: the list the code makes of it before it
    returns has the same elements, in the order of the set's iteration. *)
Record Slip : Type := {
  Avg_Win_Pct : Q;
  Total_Edge : Q;
  Legs : list Candidate;
  Leg_Ids : gset string;
  Is_Fallback : bool
}.

(** *** Loading *)

Definition set_Sport (sport : string) (r : Row) : Row :=
  {| row_FanDuel_Line := row_FanDuel_Line r;
     row_PrizePicks_Line := row_PrizePicks_Line r;
     row_FD_Fair_Over := row_FD_Fair_Over r;
     row_FD_Fair_Under := row_FD_Fair_Under r;
     row_Team := row_Team r;
     row_Player := row_Player r;
     row_Prop_Type := row_Prop_Type r;
     row_Sport := sport |}.

(** The body of the loop over [files]: a file that cannot be read is
    passed over, a table without a Sport column gets one from the path. *)
Definition load_file (dfs : list (list Row)) (f : CsvFile) : list (list Row) :=
  match content f with
  | None => dfs
  | Some df =>
      let df_rows :=
        if has_Sport_column df then rows df
        else if contains "nfl" (path f)
             then map (set_Sport "NFL") (rows df)
             else map (set_Sport "NBA") (rows df) in
      dfs ++ [df_rows]
  end.

Definition load_files (files : list CsvFile) : list (list Row) :=
  foldl load_file [] files.

(** *** The candidate extractor *)

Section Extractor.

(** Python's [float()] on the text of a cell; it raises on text that is
    no number. *)
Variable float_of_str : string -> result pyfloat.

Definition make_candidate (row : Row) (fd_line pp_line : Q)
    (bet_type : Direction) (fair_prob : Q) : Candidate :=
  let team_raw := row_Team row in
  let team_name :=
    if contains " - " team_raw
    then default team_raw (split " - " team_raw !! 0%nat)
    else team_raw in
  let position :=
    if contains " - " team_raw && (1 <? length (split " - " team_raw))%nat
    then default "N/A" (split " - " team_raw !! 1%nat)
    else "N/A" in
  let player_name := row_Player row in
  {| id := player_name +:+ "_" +:+ row_Prop_Type row;
     Player := player_name;
     Team := team_name;
     Position := position;
     Sport := row_Sport row;
     Prop_Type := row_Prop_Type row;
     FanDuel_Line := fd_line;
     PrizePicks_Line := pp_line;
     Line_Diff := Qabs (fd_line - pp_line);
     Bet_Direction := bet_type;
     Fair_Win_Pct := fair_prob;
     Edge := round2 (fair_prob - 54.21) |}.

(** The choice of the side: OVER is looked at first. *)
Definition choose_side (fair_over fair_under : pyfloat)
  : option (Direction * Q) :=
  if fgt fair_over min_candidate_prob then Some (OVER, fval fair_over)
  else if fgt fair_under min_candidate_prob then Some (UNDER, fval fair_under)
  else None.

(** The body of the [try] block of one row: the candidate of the row,
    if it has one. *)
Definition row_body (row : Row) : result (option Candidate) :=
  let fd_line_str := row_FanDuel_Line row in
  let pp_line_str := row_PrizePicks_Line row in
  if bool_decide (fd_line_str ∈ ["NL"; "FF"])
     || bool_decide (pp_line_str ∈ ["NL"; "FF"; "nan"])
  then Ok None
  else
    fd_line ← float_of_str fd_line_str;
    pp_line ← float_of_str pp_line_str;
    fair_over ← float_of_str (row_FD_Fair_Over row);
    fair_under ← float_of_str (row_FD_Fair_Under row);
    match fd_line, pp_line with
    | Fin fd, Fin pp =>
        if Qle_bool (Qabs (fd - pp)) 0.5
        then
          match choose_side fair_over fair_under with
          | Some (bet_type, fair_prob) =>
              Ok (Some (make_candidate row fd pp bet_type fair_prob))
          | None => Ok None
          end
        else Ok None
    | _, _ => Ok None
    end.

(** One turn of the loop over the rows; [except Exception: continue]. *)
Definition extract_step (candidates : list Candidate) (row : Row)
  : list Candidate :=
  match row_body row with
  | Ok (Some bet_info) => candidates ++ [bet_info]
  | Ok None => candidates
  | Raise _ => candidates
  end.

Definition extract (all_props : list Row) : list Candidate :=
  foldl extract_step [] all_props.

End Extractor.


(** *** The slip search *)

Definition fair_pcts (combo : list Candidate) : list Q := map Fair_Win_Pct combo.

(** The slip of a combination that passed the tests. *)
Definition make_slip (avg_win_pct threshold : Q) (combo : list Candidate) : Slip :=
  {| Avg_Win_Pct := round2 avg_win_pct;
     Total_Edge := round2 (avg_win_pct - threshold);
     Legs := combo;
     Leg_Ids := list_to_set (map id combo);
     Is_Fallback := false |}.

(** CASE 1, the single prop view. *)
Definition single_slip (prop : Candidate) : Slip :=
  {| Avg_Win_Pct := Fair_Win_Pct prop;
     Total_Edge := Edge prop;
     Legs := [prop];
     Leg_Ids := {[ id prop ]};
     Is_Fallback := true |}.

Definition top_props (pool : list Candidate) : list Slip :=
  map single_slip (take 51 (sort_desc Fair_Win_Pct pool)).

(** STRATEGY 1.  The inner loop, [for i in range(len(search_pool) - 1, -1, -1)],
    over the indices still to visit; it answers the index and the slip of
    the first match. *)
Fixpoint scan_partner (threshold : Q) (leg1 : Candidate)
    (search_pool : list Candidate) (indices : list nat) : option (nat * Slip) :=
  match indices with
  | [] => None
  | i :: indices' =>
      match search_pool !! i with
      | None => None
      | Some leg2 =>
          let avg_win_pct := ((Fair_Win_Pct leg1 + Fair_Win_Pct leg2) / 2)%Q in
          if Qle_bool avg_win_pct threshold
          then scan_partner threshold leg1 search_pool indices'
          else if bool_decide (Team leg1 = Team leg2)
          then scan_partner threshold leg1 search_pool indices'
          else Some (i, make_slip avg_win_pct threshold [leg1; leg2])
      end
  end.

Definition range_down (n : nat) : list nat := reverse (seq 0 n).

(** The outer loop, [while len(search_pool) >= 2]. *)
Equations? pair_loop (threshold : Q) (search_pool : list Candidate)
    (all_valid_slips : list Slip) : list Slip
    by wf (length search_pool) lt :=
  pair_loop threshold [] all_valid_slips := all_valid_slips;
  pair_loop threshold [_] all_valid_slips := all_valid_slips;
  pair_loop threshold (leg1 :: search_pool) all_valid_slips
    with scan_partner threshold leg1 search_pool (range_down (length search_pool)) => {
    | Some (i, slip) =>
        pair_loop threshold (delete i search_pool) (all_valid_slips ++ [slip]);
    | None => pair_loop threshold search_pool all_valid_slips
    }.
Proof.
  all: simpl; try lia.
  assert (Hlen : forall (p : list Candidate) (j : nat),
             (length (delete j p) <= length p)%nat).
  { induction p as [|x p IH]; intros [|j]; simpl; try lia.
    specialize (IH j). lia. }
  specialize (Hlen search_pool i). subst search_pool. simpl in Hlen. lia.
Qed.

Definition greedy_pairs (threshold : Q) (pool : list Candidate) : list Slip :=
  pair_loop threshold pool [].

(** The tests STRATEGY 2 and STRATEGY 3 share: the slip of [combo], or
    nothing when a test sends the loop to its next turn. *)
Definition evaluate (threshold : Q) (target_size : Z) (combo : list Candidate)
  : result (option Slip) :=
  avg_win_pct ← truediv (Qsum (fair_pcts combo)) (inject_Z target_size);
  if Qle_bool avg_win_pct threshold then Ok None
  else
    let players := map Player combo in
    if negb (bool_decide (Z.of_nat (size (list_to_set players : gset string)) = target_size))
    then Ok None
    else
      let teams := map Team combo in
      if bool_decide (size (list_to_set teams : gset string) < 2)%nat
      then Ok None
      else Ok (Some (make_slip avg_win_pct threshold combo)).

(** STRATEGY 2, the loop over the combinations. *)
Fixpoint brute_loop (threshold : Q) (target_size : Z)
    (combos : list (list Candidate)) (limit_check : Z)
    (all_valid_slips : list Slip) : result (list Slip) :=
  match combos with
  | [] => Ok all_valid_slips
  | combo :: combos' =>
      let limit_check := limit_check + 1 in
      if 3000000 <? limit_check then Ok all_valid_slips
      else
        found ← evaluate threshold target_size combo;
        match found with
        | None => brute_loop threshold target_size combos' limit_check all_valid_slips
        | Some slip =>
            let all_valid_slips := all_valid_slips ++ [slip] in
            if 2000 <=? Z.of_nat (length all_valid_slips) then Ok all_valid_slips
            else brute_loop threshold target_size combos' limit_check all_valid_slips
        end
  end.

Definition brute_force (threshold : Q) (target_size : Z) (pool : list Candidate)
  : result (list Slip) :=
  if target_size <? 0 then Raise ValueError
  else brute_loop threshold target_size
         (combinations (Z.to_nat target_size) pool) 0 [].

(** STRATEGY 3.  The state of the loop over the trials: the number of the
    trial, the slips so far, and whether [break] was taken. *)
Record Trials : Type := {
  trial : N;
  found_slips : result (list Slip);
  stopped : bool
}.

Definition iterations : N := 200000.

Section MonteCarlo.

(** The random source: the positions drawn in each trial. *)
Variable rand : N -> list nat.

Definition trial_step (threshold : Q) (target_size : Z)
    (pool : list Candidate) (st : Trials) : Trials :=
  if stopped st then st
  else
    match found_slips st with
    | Raise _ => st
    | Ok all_valid_slips =>
        match sample (rand (trial st)) pool target_size with
        | Raise _ =>
            {| trial := trial st; found_slips := Ok all_valid_slips;
               stopped := true |}
        | Ok combo =>
            {| trial := N.succ (trial st);
               found_slips :=
                 found ← evaluate threshold target_size combo;
                 Ok (match found with
                     | None => all_valid_slips
                     | Some slip => all_valid_slips ++ [slip]
                     end);
               stopped := false |}
        end
    end.

Definition monte_carlo (threshold : Q) (target_size : Z)
    (pool : list Candidate) : result (list Slip) :=
  found_slips
    (N.iter iterations (trial_step threshold target_size pool)
       {| trial := 0; found_slips := Ok []; stopped := false |}).

End MonteCarlo.

(** *** Ranking and removal of overlaps *)

(** The loop over the sorted slips; it answers [final_slips]. *)
Fixpoint select_loop (slips : list Slip) (final_slips : list Slip)
    (used_prop_ids : gset string) : list Slip :=
  match slips with
  | [] => final_slips
  | slip :: slips' =>
      let '(final_slips, used_prop_ids) :=
        if bool_decide (Leg_Ids slip ∩ used_prop_ids = ∅)
        then (final_slips ++ [slip], used_prop_ids ∪ Leg_Ids slip)
        else (final_slips, used_prop_ids) in
      if 1000 <=? Z.of_nat (length final_slips) then final_slips
      else select_loop slips' final_slips used_prop_ids
  end.

Definition rank (all_valid_slips : list Slip) : list Slip :=
  select_loop (sort_desc Avg_Win_Pct all_valid_slips) [] ∅.

(** *** [get_slips] and [dashboard] *)

Section Engine.

Variable float_of_str : string -> result pyfloat.
Variable int_of_str : string -> result Z.
Variable rand : N -> list nat.

Definition search (target_size : Z) (style : string) (pool : list Candidate)
  : result (list Slip) :=
  let threshold := threshold style target_size in
  let pool := sort_desc Fair_Win_Pct pool in
  let is_monte_carlo := 5 <=? target_size in
  if bool_decide (target_size = 2) && bool_decide (style = "power")
  then Ok (greedy_pairs threshold pool)
  else if negb is_monte_carlo
  then brute_force threshold target_size pool
  else monte_carlo rand threshold target_size pool.

Definition get_slips (files : list CsvFile) (target_size : Z) (style : string)
  : result (list Slip) :=
  match files with
  | [] => Ok []
  | _ =>
      match load_files files with
      | [] => Ok []
      | dfs =>
          let all_props := concat dfs in
          match extract float_of_str all_props with
          | [] => Ok []
          | pool =>
              if bool_decide (target_size = 1)
              then Ok (top_props pool)
              else
                all_valid_slips ← search target_size style pool;
                Ok (rank all_valid_slips)
          end
      end
  end.

(** The query of a request: the arguments [style] and [size], when given. *)
Record Request : Type := {
  arg_style : option string;
  arg_size : option string
}.

(** What [dashboard] hands to the page: the slips, the size, the style. *)
Definition dashboard (files : list CsvFile) (request : Request)
  : result (list Slip * Z * string) :=
  let style := default "Power" (arg_style request) in
  let size_arg := default "6" (arg_size request) in
  let size :=
    match int_of_str size_arg with
    | Ok n => n
    | Raise _ => 6
    end in
  let style :=
    if bool_decide (style ∈ ["power"; "flex"; "props"]) then style else "power" in
  let style := if bool_decide (size = 1) then "props" else style in
  slips ← get_slips files size style;
  Ok (slips, size, style).

End Engine.

End FindBets.

(** ** Vocabulary of the statements *)

Module Terms.
Import FindBets.

(** The mean of the legs' win percentages. *)
Definition mean_pct (legs : list Candidate) : Q :=
  (Qsum (fair_pcts legs) / inject_Z (Z.of_nat (length legs)))%Q.

(** The candidate a row contributes to the pool, if any. *)
Definition candidate_of (float_of_str : string -> result pyfloat) (row : Row)
  : option Candidate :=
  match row_body float_of_str row with
  | Ok found => found
  | Raise _ => None
  end.

(** The slip STRATEGY 2 and 3 make of a combination, if any. *)
Definition accepted (threshold : Q) (target_size : Z) (combo : list Candidate)
  : option Slip :=
  match evaluate threshold target_size combo with
  | Ok found => found
  | Raise _ => None
  end.

(** The rows [get_slips] reads from the files, and its pool. *)
Definition all_props (files : list CsvFile) : list Row :=
  concat (load_files files).

Definition pool_of (float_of_str : string -> result pyfloat)
    (files : list CsvFile) : list Candidate :=
  extract float_of_str (all_props files).

(** No id occurs in the leg ids of two slips of the list. *)
Definition leg_disjoint (slips : list Slip) : Prop :=
  forall (i j : nat) (s t : Slip) (x : string),
    slips !! i = Some s -> slips !! j = Some t ->
    x ∈ Leg_Ids s -> x ∈ Leg_Ids t -> i = j.

(** The players of a slip are pairwise distinct. *)
Definition distinct_players (s : Slip) : Prop :=
  NoDup (map Player (Legs s)).

(** Two legs of the slip are on different teams. *)
Definition two_teams (s : Slip) : Prop :=
  exists leg1 leg2 : Candidate,
    leg1 ∈ Legs s /\ leg2 ∈ Legs s /\ Team leg1 <> Team leg2.

(** A slip of [target_size] legs made by the search: its average is the
    rounded mean of its legs, and the mean itself is above the threshold. *)
Definition qualifies (threshold : Q) (target_size : Z) (s : Slip) : Prop :=
  Z.of_nat (length (Legs s)) = target_size /\
  Avg_Win_Pct s = round2 (mean_pct (Legs s)) /\
  (threshold < mean_pct (Legs s))%Q /\
  Leg_Ids s = list_to_set (map id (Legs s)) /\
  Is_Fallback s = false.

(** What the tests of a strategy establish for a slip. *)
Definition sound (threshold : Q) (target_size : Z) (s : Slip) : Prop :=
  qualifies threshold target_size s /\ two_teams s.

(** The state of the sampling loop holds slips that passed the tests. *)
Definition all_sound (threshold : Q) (target_size : Z) (st : Trials) : Prop :=
  exists slips : list Slip,
    found_slips st = Ok slips /\
    Forall (fun s => sound threshold target_size s /\ distinct_players s) slips.

(** The number of combinations the loop of STRATEGY 2 gets to evaluate
    when it starts with the counter at [limit_check]. *)
Definition examined (limit_check : Z) (combos : list (list Candidate)) : nat :=
  Z.to_nat (Z.min (3000000 - limit_check) (Z.of_nat (length combos))).

(** [a] may stand before [b] in a list sorted by descending key. *)
Definition key_ge {A : Type} (key : A -> Q) (a b : A) : Prop :=
  (key b <= key a)%Q.

(** Descending order of a list of numbers. *)
Definition descending (xs : list Q) : Prop :=
  forall (i j : nat) (x y : Q),
    (i <= j)%nat -> xs !! i = Some x -> xs !! j = Some y -> (y <= x)%Q.

End Terms.

(** ** Tables for the examples *)

Module Samples.
Import FindBets.

Definition quote (player team prop fd_line pp_line fair_over fair_under : string)
  : Row :=
  {| row_FanDuel_Line := fd_line;
     row_PrizePicks_Line := pp_line;
     row_FD_Fair_Over := fair_over;
     row_FD_Fair_Under := fair_under;
     row_Team := team;
     row_Player := player;
     row_Prop_Type := prop;
     row_Sport := "NBA" |}.

(** One file with the given rows. *)
Definition one_file (quotes : list Row) : list CsvFile :=
  [{| path := "props/nba_props_points.csv";
      content := Some {| has_Sport_column := true; rows := quotes |} |}].

(** A random source that always names the first element left. *)
Definition first_left : N -> list nat := fun _ => [].

(** Two candidates on different teams, at 60 and 58. *)
Definition two_quotes : list Row :=
  [ quote "A" "X - PG" "Points" "20.5" "20.5" "60" "40";
    quote "B" "Y - SF" "Points" "10.5" "10" "42" "58" ].

(** Three candidates whose mean is 55.0533..., just above 55.05. *)
Definition near_threshold : list Row :=
  [ quote "A" "X - PG" "Points" "20.5" "20.5" "55.05" "44.95";
    quote "B" "Y - SF" "Points" "10.5" "10.5" "55.05" "44.95";
    quote "C" "Z - C" "Points" "15.5" "15.5" "55.06" "44.94" ].

(** The same player name quoted for two teams. *)
Definition namesakes : list Row :=
  [ quote "J Smith" "X - PG" "Points" "20.5" "20.5" "60" "40";
    quote "J Smith" "Y - SF" "Rebounds" "10.5" "10.5" "58" "42" ].

(** The same quote loaded twice. *)
Definition repeated : list Row :=
  [ quote "A" "X - PG" "Points" "20.5" "20.5" "60" "40";
    quote "A" "X - PG" "Points" "20.5" "20.5" "60" "40" ].

(** Five candidates at 53.6 and one at 60. *)
Definition six_quotes : list Row :=
  [ quote "A" "X - PG" "Points" "20.5" "20.5" "53.6" "46.4";
    quote "B" "Y - SF" "Points" "10.5" "10.5" "53.6" "46.4";
    quote "C" "Z - C" "Points" "15.5" "15.5" "53.6" "46.4";
    quote "D" "X - SG" "Points" "12.5" "12.5" "53.6" "46.4";
    quote "E" "Y - PF" "Points" "18.5" "18.5" "53.6" "46.4";
    quote "F" "Z - PG" "Points" "25.5" "25.5" "60" "40" ].

(** The pool of [six_quotes], sorted: the candidate at 60 first. *)
Definition six_pool : list Candidate :=
  sort_desc Fair_Win_Pct (Terms.pool_of decimal_float (one_file six_quotes)).

(** A random source that always names the second element left. *)
Definition never_best : N -> list nat := fun _ => [1; 1; 1; 1; 1]%nat.

(** A random source that names the first element left in trial 0 and the
    second one in every later trial. *)
Definition best_first : N -> list nat :=
  fun t => if (t =? 0)%N then [] else [1; 1; 1; 1; 1]%nat.

End Samples.

(** ** Where the legs of a slip come from *)

Module Origin.
Import FindBets Terms.

(** All legs of a list of slips, slip after slip. *)
Definition all_legs (slips : list Slip) : list Candidate :=
  concat (map Legs slips).

(** A slip as a strategy builds it for [target_size] legs: [make_slip] on an
    average above the threshold and on a combination of that many candidates
    taken from [pool], none of them twice; the average is the mean of the
    combination. *)
Definition built (pool : list Candidate) (threshold : Q) (target_size : Z)
    (s : Slip) : Prop :=
  exists (avg_win_pct : Q) (combo : list Candidate),
    s = make_slip avg_win_pct threshold combo /\
    (avg_win_pct == mean_pct combo)%Q /\
    (threshold < avg_win_pct)%Q /\
    Z.of_nat (length combo) = target_size /\
    combo ⊆+ pool.

(** Two slips share a leg id. *)
Definition overlap (s t : Slip) : Prop :=
  exists x : string, x ∈ Leg_Ids s /\ x ∈ Leg_Ids t.

End Origin.

(** ** The scrapers (scraper.py; fanduelScraper.py has the same steps) *)

Module Scraper.

(** [s.replace(c, '')] for a single character [c]. *)
Fixpoint remove_char (c : ascii) (s : string) : string :=
  match s with
  | EmptyString => EmptyString
  | String a s' =>
      if bool_decide (a = c) then remove_char c s' else String a (remove_char c s')
  end.

(** [l[i]] on a list, with Python's negative indices; [None] is IndexError. *)
Definition py_index {A : Type} (l : list A) (i : Z) : option A :=
  if 0 <=? i then l !! Z.to_nat i
  else if 0 <=? Z.of_nat (length l) + i then l !! Z.to_nat (Z.of_nat (length l) + i)
  else None.

(** The dictionary [row_data]; the two percentages start as 0. *)
Record RowData : Type := {
  rd_Player : string;
  rd_Player_Image : string;
  rd_Team : string;
  rd_Sport : string;
  rd_Prop_Type : string;
  rd_FanDuel_Line : string;
  rd_FD_Over_Odds : string;
  rd_FD_Under_Odds : string;
  rd_PrizePicks_Line : string;
  rd_FD_Fair_Over : Q;
  rd_FD_Fair_Under : Q
}.

Definition new_row (name img_url team sport prop_name : string) : RowData :=
  {| rd_Player := name;
     rd_Player_Image := img_url;
     rd_Team := team;
     rd_Sport := sport;
     rd_Prop_Type := prop_name;
     rd_FanDuel_Line := "NL";
     rd_FD_Over_Odds := "NL";
     rd_FD_Under_Odds := "NL";
     rd_PrizePicks_Line := "NL";
     rd_FD_Fair_Over := 0;
     rd_FD_Fair_Under := 0 |}.

Definition set_over (line odds : string) (r : RowData) : RowData :=
  {| rd_Player := rd_Player r;
     rd_Player_Image := rd_Player_Image r;
     rd_Team := rd_Team r;
     rd_Sport := rd_Sport r;
     rd_Prop_Type := rd_Prop_Type r;
     rd_FanDuel_Line := line;
     rd_FD_Over_Odds := odds;
     rd_FD_Under_Odds := rd_FD_Under_Odds r;
     rd_PrizePicks_Line := rd_PrizePicks_Line r;
     rd_FD_Fair_Over := rd_FD_Fair_Over r;
     rd_FD_Fair_Under := rd_FD_Fair_Under r |}.

Definition set_under (line odds : string) (r : RowData) : RowData :=
  {| rd_Player := rd_Player r;
     rd_Player_Image := rd_Player_Image r;
     rd_Team := rd_Team r;
     rd_Sport := rd_Sport r;
     rd_Prop_Type := rd_Prop_Type r;
     rd_FanDuel_Line := line;
     rd_FD_Over_Odds := rd_FD_Over_Odds r;
     rd_FD_Under_Odds := odds;
     rd_PrizePicks_Line := rd_PrizePicks_Line r;
     rd_FD_Fair_Over := rd_FD_Fair_Over r;
     rd_FD_Fair_Under := rd_FD_Fair_Under r |}.

Definition set_PrizePicks_Line (line : string) (r : RowData) : RowData :=
  {| rd_Player := rd_Player r;
     rd_Player_Image := rd_Player_Image r;
     rd_Team := rd_Team r;
     rd_Sport := rd_Sport r;
     rd_Prop_Type := rd_Prop_Type r;
     rd_FanDuel_Line := rd_FanDuel_Line r;
     rd_FD_Over_Odds := rd_FD_Over_Odds r;
     rd_FD_Under_Odds := rd_FD_Under_Odds r;
     rd_PrizePicks_Line := line;
     rd_FD_Fair_Over := rd_FD_Fair_Over r;
     rd_FD_Fair_Under := rd_FD_Fair_Under r |}.

Definition set_Fair (fair_over fair_under : Q) (r : RowData) : RowData :=
  {| rd_Player := rd_Player r;
     rd_Player_Image := rd_Player_Image r;
     rd_Team := rd_Team r;
     rd_Sport := rd_Sport r;
     rd_Prop_Type := rd_Prop_Type r;
     rd_FanDuel_Line := rd_FanDuel_Line r;
     rd_FD_Over_Odds := rd_FD_Over_Odds r;
     rd_FD_Under_Odds := rd_FD_Under_Odds r;
     rd_PrizePicks_Line := rd_PrizePicks_Line r;
     rd_FD_Fair_Over := fair_over;
     rd_FD_Fair_Under := fair_under |}.

(** A header of the odds table: its text and its inner HTML. *)
Record Header : Type := {
  header_text : string;
  header_inner : string
}.

(** A cell of a player's row as the two queries see it: its buttons, each
    with the texts of its line and of its cost, [None] for a button where
    [find_element] raises; and the texts of its line elements. *)
Record Cell : Type := {
  cell_buttons : list (option (string * string));
  cell_lines : list string
}.

(** The quotation mark. *)
Definition dquote : string := String (ascii_of_nat 34) EmptyString.

Section Page.

(** Python's [str.strip()] and [str.lower()], and [int()] on a text. *)
Variable strip : string -> string.
Variable lower : string -> string.
Variable int_of_str : string -> result Z.

Definition is_FanDuel (header : Header) : bool :=
  let text := strip (header_text header) in
  let inner := header_inner header in
  contains "FanDuel" text
  || contains ("alt=" +:+ dquote +:+ "FanDuel" +:+ dquote) inner
  || (contains "src" inner && contains "fanduel" (lower inner)).

Definition is_PrizePicks (header : Header) : bool :=
  let text := strip (header_text header) in
  let inner := header_inner header in
  contains "PrizePicks" text
  || contains ("alt=" +:+ dquote +:+ "PrizePicks" +:+ dquote) inner
  || (contains "src" inner && contains "prizepicks" (lower inner)).

(** The loop [for i, header in enumerate(header_items)]. *)
Fixpoint scan_headers (header_items : list Header) (i fd_index pp_index : Z)
  : Z * Z :=
  match header_items with
  | [] => (fd_index, pp_index)
  | header :: rest =>
      if is_FanDuel header then scan_headers rest (i + 1) i pp_index
      else if is_PrizePicks header then scan_headers rest (i + 1) fd_index i
      else scan_headers rest (i + 1) fd_index pp_index
  end.

Definition find_columns (header_items : list Header) : Z * Z :=
  scan_headers header_items 0 (-1) (-1).

Definition odds_of (cost_text : string) : string :=
  if bool_decide (cost_text = "EVEN") then "+100" else cost_text.

(** One turn of the loop over the buttons of the FanDuel cell. *)
Definition read_button (row_data : RowData) (line cost : string) : RowData :=
  let line_text := strip line in
  let cost_text := remove_char ")" (remove_char "(" (strip cost)) in
  if String.prefix "O" line_text
  then set_over (strip (remove_char "O" line_text)) (odds_of cost_text) row_data
  else if String.prefix "U" line_text
  then set_under
         (if bool_decide (rd_FanDuel_Line row_data = "NL")
          then strip (remove_char "U" line_text)
          else rd_FanDuel_Line row_data)
         (odds_of cost_text) row_data
  else row_data.

(** The loop over the buttons inside its [try]: a button that raises ends
    it, what was stored before stays. *)
Fixpoint read_buttons (buttons : list (option (string * string)))
    (row_data : RowData) : RowData :=
  match buttons with
  | [] => row_data
  | None :: _ => row_data
  | Some (line, cost) :: rest => read_buttons rest (read_button row_data line cost)
  end.

(** The loop over the line elements of the PrizePicks cell: the first text
    that is not empty is stored. *)
Fixpoint read_lines (lines : list string) (row_data : RowData) : RowData :=
  match lines with
  | [] => row_data
  | l :: rest =>
      let txt := strip l in
      if bool_decide (txt = EmptyString) then read_lines rest row_data
      else set_PrizePicks_Line
             (strip (remove_char "U" (remove_char "O" txt))) row_data
  end.

(** The last [try] of a row: the fair percentages, when both odds are there
    and [int()] accepts them. *)
Definition fill_fair (row_data : RowData) : RowData :=
  let o := rd_FD_Over_Odds row_data in
  let u := rd_FD_Under_Odds row_data in
  if negb (bool_decide (o = "NL")) && negb (bool_decide (u = "NL"))
  then
    match (over_odds ← int_of_str o;
           under_odds ← int_of_str u;
           Novig.calculate_novig over_odds under_odds) with
    | Ok (fair_o, fair_u) =>
        set_Fair (round2 (fair_o * 100)) (round2 (fair_u * 100)) row_data
    | Raise _ => row_data
    end
  else row_data.

(** A player's row from [row_data] on: the FanDuel cell, the PrizePicks
    cell, the percentages.  [None] when indexing the cells raises, which
    makes the loop over the rows pass on. *)
Definition scrape_row (fd_index pp_index : Z) (cells : list Cell)
    (row_data : RowData) : option RowData :=
  row_data ←
    (if negb (bool_decide (fd_index = -1)) && (fd_index <? Z.of_nat (length cells))
     then cell ← py_index cells fd_index;
          Some (read_buttons (cell_buttons cell) row_data)
     else Some row_data);
  row_data ←
    (if negb (bool_decide (pp_index = -1)) && (pp_index <? Z.of_nat (length cells))
     then cell ← py_index cells pp_index;
          Some (read_lines (cell_lines cell) row_data)
     else Some row_data);
  Some (fill_fair row_data).

End Page.

(** *** The scroll loop *)

(** The two variables of the loop. *)
Record Scroll : Type := {
  last_height : Z;
  retries : Z
}.

Definition max_retries : Z := 5.

(** How the loop ends on a list of heights the page reports, one per
    [execute_script("return document.body.scrollHeight")]: with [break],
    leaving the heights not read, or with the list used up. *)
Inductive Outcome : Type :=
  | Finished (s : Scroll) (unread : list Z)
  | Starved (s : Scroll).

Fixpoint scroll_loop (heights : list Z) (s : Scroll) : Outcome :=
  match heights with
  | [] => Starved s
  | new_height :: heights1 =>
      if bool_decide (new_height = last_height s)
      then
        let retries := retries s + 1 in
        if retries <=? max_retries
        then
          match heights1 with
          | [] => Starved {| last_height := last_height s; retries := retries |}
          | new_height :: heights2 =>
              if last_height s <? new_height
              then scroll_loop heights2 {| last_height := new_height; retries := 0 |}
              else scroll_loop heights2
                     {| last_height := last_height s; retries := retries |}
          end
        else Finished {| last_height := last_height s; retries := retries |} heights1
      else scroll_loop heights1 {| last_height := new_height; retries := 0 |}
  end.

End Scraper.

(** ** More vocabulary and tables *)

Module MoreTerms.
Import FindBets Terms.

(** A row the extractor passes over whatever its other cells hold: a line
    is a marker of a missing line, or [float()] rejects one of the four
    cells. *)
Definition unreadable (float_of_str : string -> result pyfloat) (row : Row) : Prop :=
  row_FanDuel_Line row ∈ ["NL"; "FF"] \/
  row_PrizePicks_Line row ∈ ["NL"; "FF"; "nan"] \/
  (exists e, float_of_str (row_FanDuel_Line row) = Raise e) \/
  (exists e, float_of_str (row_PrizePicks_Line row) = Raise e) \/
  (exists e, float_of_str (row_FD_Fair_Over row) = Raise e) \/
  (exists e, float_of_str (row_FD_Fair_Under row) = Raise e).


(** What the header loop has established after the headers [seen]: the
    FanDuel index is -1 when no header seen is FanDuel's, else it is the
    place of the last header that is; the PrizePicks index is -1 or the
    place of a header that is PrizePicks' and not FanDuel's. *)
Definition columns_ok (strip lower : string -> string) (seen : list Scraper.Header)
    (fd_index pp_index : Z) : Prop :=
  ((fd_index = -1 /\
    Forall (fun h => Scraper.is_FanDuel strip lower h = false) seen) \/
   (exists h, 0 <= fd_index /\ seen !! Z.to_nat fd_index = Some h /\
              Scraper.is_FanDuel strip lower h = true /\
              forall j h', (Z.to_nat fd_index < j)%nat -> seen !! j = Some h' ->
                           Scraper.is_FanDuel strip lower h' = false)) /\
  (pp_index = -1 \/
   (exists h, 0 <= pp_index /\ seen !! Z.to_nat pp_index = Some h /\
              Scraper.is_PrizePicks strip lower h = true /\
              Scraper.is_FanDuel strip lower h = false)).

(** What the two percentages of a scraped row are like. *)
Definition fair_pair (fair_over fair_under : Q) : Prop :=
  (0 <= fair_over <= 100)%Q /\ (0 <= fair_under <= 100)%Q /\
  ((fair_over == 0 /\ fair_under == 0) \/
   (99.99 <= fair_over + fair_under <= 100.01))%Q /\
  ~ ((53.5 < fair_over)%Q /\ (53.5 < fair_under)%Q).

(** Two candidates on one team. *)
Definition teammates : list Row :=
  [ Samples.quote "A" "X - PG" "Points" "20.5" "20.5" "60" "40";
    Samples.quote "B" "X - SF" "Points" "10.5" "10" "42" "58" ].


(** A row whose FanDuel line is missing. *)
Definition no_line : Row :=
  Samples.quote "C" "Z - C" "Points" "NL" "12.5" "0" "0".

(** The cells of a player's row: FanDuel with an over and an under button,
    PrizePicks with a line. *)
Definition two_cells : list Scraper.Cell :=
  [ {| Scraper.cell_buttons := [Some ("O 20.5", "(-110)"); Some ("U 20.5", "(-120)")];
       Scraper.cell_lines := ["O 20.5"; "U 20.5"] |};
    {| Scraper.cell_buttons := [];
       Scraper.cell_lines := ["20.5"] |} ].

(** The headers of an odds table with the two books. *)
Definition two_headers : list Scraper.Header :=
  [ {| Scraper.header_text := "Player"; Scraper.header_inner := "Player" |};
    {| Scraper.header_text := "FanDuel"; Scraper.header_inner := "FanDuel" |};
    {| Scraper.header_text := "PrizePicks"; Scraper.header_inner := "PrizePicks" |} ].

(** Texts as they are, for text without blanks around it and in lower case. *)
Definition as_is (text : string) : string := text.


End MoreTerms.

(** * Properties *)

(** ** Division *)

Lemma truediv_ok (a b : Q) : ~ (b == 0)%Q -> truediv a b = Ok (a / b)%Q.
Proof.
  intros Hb. unfold truediv.
  destruct (Qeq_bool b 0) eqn:E; [|reflexivity].
  apply Qeq_bool_iff in E. contradiction.
Qed.

Lemma truediv_zero (a b : Q) : (b == 0)%Q -> truediv a b = Raise ZeroDivisionError.
Proof.
  intros Hb. unfold truediv.
  apply Qeq_bool_iff in Hb. now rewrite Hb.
Qed.

(** ** The odds normalizer *)

Module NovigFacts.
Import Novig.

Lemma inject_Z_nonzero (z : Z) : z <> 0 -> ~ (inject_Z z == 0)%Q.
Proof. unfold Qeq, inject_Z. simpl. lia. Qed.

Lemma get_implied_spec (o : Z) : get_implied o = Ok (implied_spec o).
Proof.
  unfold get_implied, implied_spec.
  destruct (0 <? o) eqn:E.
  - apply Z.ltb_lt in E. apply truediv_ok, inject_Z_nonzero. lia.
  - apply truediv_ok, inject_Z_nonzero. lia.
Qed.

Lemma implied_spec_nonneg (o : Z) : (0 <= implied_spec o)%Q.
Proof.
  unfold implied_spec. destruct (0 <? o) eqn:E.
  - apply Z.ltb_lt in E. apply Qle_shift_div_l.
    + change 0%Q with (inject_Z 0). rewrite <- Zlt_Qlt. lia.
    + rewrite Qmult_0_l. discriminate.
  - apply Qle_shift_div_l.
    + change 0%Q with (inject_Z 0). rewrite <- Zlt_Qlt. lia.
    + rewrite Qmult_0_l. change 0%Q with (inject_Z 0). rewrite <- Zle_Qle. lia.
Qed.

Lemma implied_spec_zero (o : Z) : (implied_spec o == 0)%Q <-> o = 0.
Proof.
  unfold implied_spec. destruct (0 <? o) eqn:E.
  - apply Z.ltb_lt in E. split; [|lia].
    intros H. exfalso.
    assert (Hd : ~ (inject_Z (o + 100) == 0)%Q) by (apply inject_Z_nonzero; lia).
    apply (Qmult_inj_r _ _ _ Hd) in H.
    rewrite Qmult_0_l in H. unfold Qdiv in H.
    rewrite <- Qmult_assoc, (Qmult_comm (/ _)), Qmult_inv_r, Qmult_1_r in H by exact Hd.
    discriminate H.
  - apply Z.ltb_ge in E.
    assert (Hd : ~ (inject_Z (Z.abs o + 100) == 0)%Q) by (apply inject_Z_nonzero; lia).
    split.
    + intros H. apply (Qmult_inj_r _ _ _ Hd) in H.
      rewrite Qmult_0_l in H. unfold Qdiv in H.
      rewrite <- Qmult_assoc, (Qmult_comm (/ _)), Qmult_inv_r, Qmult_1_r in H by exact Hd.
      unfold Qeq, inject_Z in H. simpl in H. lia.
    + intros ->. reflexivity.
Qed.

Lemma novig_body_regular (o u : Z) :
  ~ (implied_spec o + implied_spec u == 0)%Q ->
  novig_body o u =
    Ok ((implied_spec o / (implied_spec o + implied_spec u))%Q,
        (implied_spec u / (implied_spec o + implied_spec u))%Q).
Proof.
  intros Hs. unfold novig_body.
  rewrite !get_implied_spec. simpl.
  rewrite !truediv_ok by exact Hs. reflexivity.
Qed.

(** C4.  When the implied probabilities of the two odds do not add up to
    zero, [calculate_novig] returns a pair of fair probabilities whose sum
    is 1 and which both lie between 0 and 1; the implied probability of
    odds [o] is [100 / (o + 100)] for positive [o] and [|o| / (|o| + 100)]
    otherwise. *)
Theorem calculate_novig_normalizes (over_odds under_odds : Z) :
  ~ (implied_spec over_odds + implied_spec under_odds == 0)%Q ->
  get_implied over_odds = Ok (implied_spec over_odds) /\
  get_implied under_odds = Ok (implied_spec under_odds) /\
  exists fair_over fair_under : Q,
    calculate_novig over_odds under_odds = Ok (fair_over, fair_under) /\
    (fair_over + fair_under == 1)%Q /\
    (0 <= fair_over <= 1)%Q /\ (0 <= fair_under <= 1)%Q.
Proof.
  intros Hs. split; [apply get_implied_spec|]. split; [apply get_implied_spec|].
  pose proof (implied_spec_nonneg over_odds) as Ho.
  pose proof (implied_spec_nonneg under_odds) as Hu.
  set (po := implied_spec over_odds) in *.
  set (pu := implied_spec under_odds) in *.
  assert (Hpos : (0 < po + pu)%Q).
  { apply Qle_lt_or_eq in Ho. apply Qle_lt_or_eq in Hu.
    destruct Ho as [Ho|Ho], Hu as [Hu|Hu]; lra. }
  exists (po / (po + pu))%Q, (pu / (po + pu))%Q.
  split.
  { unfold calculate_novig. subst po pu. now rewrite novig_body_regular. }
  split; [field; exact Hs|].
  split; split.
  - apply Qle_shift_div_l; [exact Hpos|lra].
  - apply Qle_shift_div_r; [exact Hpos|lra].
  - apply Qle_shift_div_l; [exact Hpos|lra].
  - apply Qle_shift_div_r; [exact Hpos|lra].
Qed.

Lemma calculate_novig_normalizes_witness :
  exists fair_over fair_under : Q,
    calculate_novig (-110) (-110) = Ok (fair_over, fair_under) /\
    (fair_over + fair_under == 1)%Q /\
    (0 <= fair_over <= 1)%Q /\ (0 <= fair_under <= 1)%Q.
Proof.
  apply (calculate_novig_normalizes (-110) (-110)).
  vm_compute. discriminate.
Defined.

(** C9.  When both odds have the implied probability zero,
    [calculate_novig] returns the pair (0.0, 0.0); the division by zero is
    caught. *)
Theorem calculate_novig_degenerate (over_odds under_odds : Z) (prob_over prob_under : Q) :
  get_implied over_odds = Ok prob_over ->
  get_implied under_odds = Ok prob_under ->
  (prob_over == 0)%Q -> (prob_under == 0)%Q ->
  novig_body over_odds under_odds = Raise ZeroDivisionError /\
  calculate_novig over_odds under_odds = Ok (0%Q, 0%Q).
Proof.
  intros Ho Hu Hzo Hzu.
  rewrite get_implied_spec in Ho, Hu.
  injection Ho as <-. injection Hu as <-.
  apply (proj1 (implied_spec_zero _)) in Hzo.
  apply (proj1 (implied_spec_zero _)) in Hzu. subst.
  split; reflexivity.
Qed.

Lemma calculate_novig_degenerate_witness :
  novig_body 0 0 = Raise ZeroDivisionError /\
  calculate_novig 0 0 = Ok (0%Q, 0%Q).
Proof.
  apply (calculate_novig_degenerate 0 0 (0 / 100)%Q (0 / 100)%Q);
    reflexivity.
Defined.

End NovigFacts.

(** ** Sorting, rounding, sums *)

Section SortFacts.
Context {A : Type} (key : A -> Q).

Lemma insert_desc_perm (x : A) (l : list A) : insert_desc key x l ≡ₚ x :: l.
Proof.
  induction l as [|y l IH]; simpl; [done|].
  destruct (Qle_bool (key y) (key x)); [done|].
  rewrite IH. apply Permutation_swap.
Qed.

Lemma sort_desc_perm (l : list A) : sort_desc key l ≡ₚ l.
Proof.
  induction l as [|x l IH]; simpl; [done|].
  unfold sort_desc in *. simpl. rewrite insert_desc_perm. now rewrite IH.
Qed.

Lemma sort_desc_length (l : list A) : length (sort_desc key l) = length l.
Proof. now rewrite sort_desc_perm. Qed.

Lemma insert_desc_sorted (x : A) (l : list A) :
  StronglySorted (Terms.key_ge key) l -> StronglySorted (Terms.key_ge key) (insert_desc key x l).
Proof.
  induction 1 as [|y l Hs IH Hall]; simpl.
  - repeat constructor.
  - destruct (Qle_bool (key y) (key x)) eqn:E.
    + apply Qle_bool_iff in E. constructor; [now constructor|].
      constructor; [exact E|].
      eapply Forall_impl; [exact Hall|].
      intros z Hz. unfold Terms.key_ge in *. lra.
    + assert (Hlt : (key x < key y)%Q).
      { apply Qnot_le_lt. intros H. apply Qle_bool_iff in H. congruence. }
      constructor; [exact IH|].
      rewrite insert_desc_perm. constructor; [|exact Hall].
      unfold Terms.key_ge. lra.
Qed.

Lemma sort_desc_sorted (l : list A) : StronglySorted (Terms.key_ge key) (sort_desc key l).
Proof.
  induction l as [|x l IH]; [constructor|].
  apply insert_desc_sorted, IH.
Qed.

Lemma sorted_take (n : nat) (l : list A) :
  StronglySorted (Terms.key_ge key) l -> StronglySorted (Terms.key_ge key) (take n l).
Proof.
  intros H. revert n. induction H as [|x l Hs IH Hall]; intros [|n]; simpl;
    try constructor; [apply IH|].
  rewrite Forall_forall in Hall. rewrite Forall_forall.
  intros y Hy. apply Hall. eapply subseteq_take, Hy.
Qed.

Lemma sorted_descending (l : list A) :
  StronglySorted (Terms.key_ge key) l -> Terms.descending (map key l).
Proof.
  induction 1 as [|x l Hs IH Hall]; intros i j a b Hij Hi Hj.
  - destruct i; discriminate.
  - destruct i as [|i], j as [|j]; simpl in *; try lia.
    + injection Hi as <-. injection Hj as <-. lra.
    + injection Hi as <-.
      rewrite list_lookup_fmap in Hj.
      destruct (l !! j) as [y|] eqn:Ey; [|discriminate].
      injection Hj as <-. rewrite Forall_forall in Hall.
      apply Hall. eapply list_elem_of_lookup_2, Ey.
    + eapply (IH i j); [lia|exact Hi|exact Hj].
Qed.

End SortFacts.

(** ** The candidate extractor *)

Module ExtractorFacts.
Import FindBets Terms.

Section WithFloat.
Variable float_of_str : string -> result pyfloat.

Lemma fgt_true (x : pyfloat) (y : Q) :
  fgt x y = true -> (y < fval x)%Q.
Proof.
  destruct x as [q|]; simpl; [|discriminate].
  intros H. apply Qnot_le_lt. intros Hle.
  apply Qle_bool_iff in Hle. rewrite Hle in H. discriminate.
Qed.

Lemma choose_side_spec (fair_over fair_under : pyfloat) (d : Direction) (p : Q) :
  choose_side fair_over fair_under = Some (d, p) ->
  (53.5 < p)%Q /\
  ((fgt fair_over 53.5 = true /\ d = OVER /\ p = fval fair_over) \/
   (fgt fair_over 53.5 = false /\ fgt fair_under 53.5 = true /\
    d = UNDER /\ p = fval fair_under)).
Proof.
  unfold choose_side, min_candidate_prob.
  destruct (fgt fair_over 53.5) eqn:Eo.
  - intros [= <- <-]. split; [now apply fgt_true|]. left. auto.
  - destruct (fgt fair_under 53.5) eqn:Eu; [|discriminate].
    intros [= <- <-]. split; [now apply fgt_true|]. right. auto.
Qed.

Lemma row_body_spec (row : Row) (c : Candidate) :
  row_body float_of_str row = Ok (Some c) ->
  (Line_Diff c <= 0.5)%Q /\ (53.5 < Fair_Win_Pct c)%Q /\
  exists fair_over fair_under : pyfloat,
    float_of_str (row_FD_Fair_Over row) = Ok fair_over /\
    float_of_str (row_FD_Fair_Under row) = Ok fair_under /\
    ((fgt fair_over 53.5 = true /\ Bet_Direction c = OVER /\
      Fair_Win_Pct c = fval fair_over) \/
     (fgt fair_over 53.5 = false /\ fgt fair_under 53.5 = true /\
      Bet_Direction c = UNDER /\ Fair_Win_Pct c = fval fair_under)).
Proof.
  unfold row_body, mbind, result_bind.
  destruct (_ || _); [discriminate|].
  destruct (float_of_str (row_FanDuel_Line row)) as [fd|]; [|discriminate].
  destruct (float_of_str (row_PrizePicks_Line row)) as [pp|]; [|discriminate].
  destruct (float_of_str (row_FD_Fair_Over row)) as [fo|]; [|discriminate].
  destruct (float_of_str (row_FD_Fair_Under row)) as [fu|]; [|discriminate].
  simpl.
  destruct fd as [fd|]; [|discriminate].
  destruct pp as [pp|]; [|discriminate].
  destruct (Qle_bool _ _) eqn:Ed; [|discriminate].
  destruct (choose_side fo fu) as [[d p]|] eqn:Es; [|discriminate].
  intros [= <-]. simpl.
  apply Qle_bool_iff in Ed.
  apply choose_side_spec in Es as [Hp Hside].
  split; [exact Ed|]. split; [exact Hp|].
  exists fo, fu. auto.
Qed.

Lemma row_body_neither (row : Row) (fair_over fair_under : pyfloat) :
  float_of_str (row_FD_Fair_Over row) = Ok fair_over ->
  float_of_str (row_FD_Fair_Under row) = Ok fair_under ->
  fgt fair_over 53.5 = false -> fgt fair_under 53.5 = false ->
  candidate_of float_of_str row = None.
Proof.
  intros Ho Hu Eo Eu. unfold candidate_of, row_body, mbind, result_bind.
  destruct (_ || _); [reflexivity|].
  destruct (float_of_str (row_FanDuel_Line row)) as [fd|]; [|reflexivity].
  destruct (float_of_str (row_PrizePicks_Line row)) as [pp|]; [|reflexivity].
  rewrite Ho, Hu. simpl.
  destruct fd as [fd|]; [|reflexivity].
  destruct pp as [pp|]; [|reflexivity].
  destruct (Qle_bool _ _); [|reflexivity].
  unfold choose_side, min_candidate_prob. now rewrite Eo, Eu.
Qed.

Lemma candidate_of_spec (row : Row) (c : Candidate) :
  candidate_of float_of_str row = Some c ->
  row_body float_of_str row = Ok (Some c).
Proof.
  unfold candidate_of. destruct (row_body float_of_str row); congruence.
Qed.

Lemma extract_step_spec (candidates : list Candidate) (row : Row) :
  extract_step float_of_str candidates row =
    candidates ++ option_list (candidate_of float_of_str row).
Proof.
  unfold extract_step, candidate_of.
  destruct (row_body float_of_str row) as [[c|]|]; simpl;
    now rewrite ?app_nil_r.
Qed.

Lemma extract_loop_spec (all_props : list Row) (candidates : list Candidate) :
  foldl (extract_step float_of_str) candidates all_props =
    candidates ++ omap (candidate_of float_of_str) all_props.
Proof.
  revert candidates.
  induction all_props as [|row all_props IH]; intros candidates; simpl.
  - now rewrite app_nil_r.
  - rewrite IH, extract_step_spec.
    destruct (candidate_of float_of_str row); simpl;
      now rewrite <- ?app_assoc, ?app_nil_r.
Qed.

Lemma extract_omap (all_props : list Row) :
  extract float_of_str all_props = omap (candidate_of float_of_str) all_props.
Proof. unfold extract. now rewrite extract_loop_spec. Qed.

Lemma omap_length_le {X Y : Type} (f : X -> option Y) (l : list X) :
  (length (omap f l) <= length l)%nat.
Proof.
  induction l as [|x l IH]; csimpl; [lia|].
  destruct (f x); csimpl; lia.
Qed.

(** C5.  The pool holds, in row order, the candidate of each row that
    has one, so no row gives more than one; every candidate has
    [Line_Diff <= 0.5] and [Fair_Win_Pct > 53.5]; a row's candidate is
    OVER when the fair over percentage exceeds 53.5, else UNDER when the
    fair under percentage does, and a row where neither does gives no
    candidate. *)
Theorem extractor_admission (all_props : list Row) :
  extract float_of_str all_props = omap (candidate_of float_of_str) all_props /\
  (length (extract float_of_str all_props) <= length all_props)%nat /\
  (forall c : Candidate, c ∈ extract float_of_str all_props ->
     (Line_Diff c <= 0.5)%Q /\ (53.5 < Fair_Win_Pct c)%Q) /\
  (forall (row : Row) (c : Candidate),
     candidate_of float_of_str row = Some c ->
     exists fair_over fair_under : pyfloat,
       float_of_str (row_FD_Fair_Over row) = Ok fair_over /\
       float_of_str (row_FD_Fair_Under row) = Ok fair_under /\
       ((fgt fair_over 53.5 = true /\ Bet_Direction c = OVER /\
         Fair_Win_Pct c = fval fair_over) \/
        (fgt fair_over 53.5 = false /\ fgt fair_under 53.5 = true /\
         Bet_Direction c = UNDER /\ Fair_Win_Pct c = fval fair_under))) /\
  (forall (row : Row) (fair_over fair_under : pyfloat),
     float_of_str (row_FD_Fair_Over row) = Ok fair_over ->
     float_of_str (row_FD_Fair_Under row) = Ok fair_under ->
     fgt fair_over 53.5 = false -> fgt fair_under 53.5 = false ->
     candidate_of float_of_str row = None).
Proof.
  split; [apply extract_omap|].
  split; [rewrite extract_omap; apply omap_length_le|].
  split.
  { intros c Hc. rewrite extract_omap in Hc.
    apply list_elem_of_omap in Hc as (row & _ & Hrow).
    apply candidate_of_spec, row_body_spec in Hrow. tauto. }
  split.
  { intros row c Hrow.
    apply candidate_of_spec, row_body_spec in Hrow. tauto. }
  apply row_body_neither.
Qed.

End WithFloat.

Lemma extractor_admission_witness :
  exists c : Candidate,
    extract decimal_float Samples.two_quotes !! 1%nat = Some c /\
    ((Line_Diff c <= 0.5)%Q /\ (53.5 < Fair_Win_Pct c)%Q) /\
    Bet_Direction c = UNDER.
Proof.
  destruct (extractor_admission decimal_float Samples.two_quotes)
    as (_ & _ & Hadm & _).
  eexists. split; [vm_compute; reflexivity|].
  split; [|reflexivity].
  apply Hadm. apply list_elem_of_lookup_2 with 1%nat. reflexivity.
Defined.

End ExtractorFacts.

(** ** The single prop view *)

Module ViewFacts.
Import FindBets Terms.

Section WithRuntime.
Variable float_of_str : string -> result pyfloat.
Variable rand : N -> list nat.

(** The three early returns of [get_slips] all amount to an empty pool. *)
Lemma get_slips_pool (files : list CsvFile) (target_size : Z) (style : string) :
  get_slips float_of_str rand files target_size style =
    match pool_of float_of_str files with
    | [] => Ok []
    | _ :: _ =>
        let pool := pool_of float_of_str files in
        if bool_decide (target_size = 1) then Ok (top_props pool)
        else all_valid_slips ← search rand target_size style pool;
             Ok (rank all_valid_slips)
    end.
Proof.
  unfold get_slips, pool_of, all_props.
  destruct files as [|f files]; [reflexivity|].
  destruct (load_files (f :: files)) as [|df dfs]; [reflexivity|].
  destruct (extract float_of_str (concat (df :: dfs))); reflexivity.
Qed.

Lemma get_slips_single (files : list CsvFile) (style : string) :
  get_slips float_of_str rand files 1 style =
    Ok (top_props (pool_of float_of_str files)).
Proof.
  rewrite get_slips_pool.
  destruct (pool_of float_of_str files); reflexivity.
Qed.

(** C7.  A request of size 1 returns the first 51 candidates of the pool
    sorted by descending [Fair_Win_Pct], each as a slip of its own:
    min(51, pool size) entries, in descending order, the average of an
    entry being the percentage of its single leg, every entry flagged as
    a fallback; neither the style nor any threshold plays a part. *)
Theorem single_prop_view (files : list CsvFile) (style : string) :
  let pool := pool_of float_of_str files in
  let ranked := sort_desc Fair_Win_Pct pool in
  exists slips : list Slip,
    get_slips float_of_str rand files 1 style = Ok slips /\
    length slips = Nat.min 51 (length pool) /\
    ranked ≡ₚ pool /\
    map Legs slips = map (fun c => [c]) (take 51 ranked) /\
    descending (map Avg_Win_Pct slips) /\
    Forall (fun s => exists c, Legs s = [c] /\
              Avg_Win_Pct s = Fair_Win_Pct c /\ Is_Fallback s = true) slips.
Proof.
  intros pool ranked. exists (top_props pool).
  split; [apply get_slips_single|].
  unfold top_props. fold ranked.
  split.
  { rewrite length_map, length_take. unfold ranked.
    rewrite sort_desc_length. lia. }
  split; [apply sort_desc_perm|].
  split.
  { rewrite <- list_fmap_compose. reflexivity. }
  split.
  { rewrite <- list_fmap_compose.
    change (Avg_Win_Pct ∘ single_slip) with Fair_Win_Pct.
    apply sorted_descending, sorted_take, sort_desc_sorted. }
  apply Forall_fmap, Forall_true. intros c. exists c. auto.
Qed.

End WithRuntime.

End ViewFacts.

(** ** Rounding and thresholds *)

Module NumberFacts.
Import FindBets Terms.

Lemma round_half_even_comp (x y : Q) :
  (x == y)%Q -> round_half_even x = round_half_even y.
Proof.
  intros E. unfold round_half_even.
  rewrite (Qfloor_comp _ _ E).
  assert (Ec : (x - inject_Z (Qfloor y) ?= 1 # 2)%Q
               = (y - inject_Z (Qfloor y) ?= 1 # 2)%Q).
  { apply Qcompare_comp; [now rewrite E|reflexivity]. }
  now rewrite Ec.
Qed.

Lemma round2_comp (x y : Q) : (x == y)%Q -> round2 x = round2 y.
Proof.
  intros E. unfold round2. f_equal.
  apply round_half_even_comp. now rewrite E.
Qed.

Lemma round_half_even_floor (x : Q) : Qfloor x <= round_half_even x.
Proof.
  unfold round_half_even.
  destruct (_ ?= _)%Q; [destruct (Z.even _)|..]; lia.
Qed.

(** Rounding does not take a number below a hundredth it exceeds. *)
Lemma round2_ge (t x : Q) :
  Qden t = 100%positive -> (t < x)%Q -> (t <= round2 x)%Q.
Proof.
  intros Hd Hlt. destruct t as [n d]. simpl in Hd. subst d.
  assert (Hn : n <= Qfloor (x * 100)).
  { rewrite <- (Qfloor_Z n). apply Qfloor_resp_le.
    apply Qlt_le_weak.
    assert (E : (inject_Z n == (n # 100) * 100)%Q).
    { unfold Qeq, inject_Z. simpl. lia. }
    rewrite E. apply Qmult_lt_compat_r; [reflexivity|exact Hlt]. }
  pose proof (round_half_even_floor (x * 100)) as Hr.
  unfold round2, Qle. simpl. nia.
Qed.

Lemma THRESHOLDS_hundredths :
  map_Forall (fun _ sizes => map_Forall (fun (_ : Z) t => Qden t = 100%positive) sizes)
    THRESHOLDS.
Proof. apply (bool_decide_unpack _). vm_compute. exact I. Qed.

Lemma threshold_den (style : string) (target_size : Z) :
  Qden (threshold style target_size) = 100%positive.
Proof.
  unfold threshold.
  destruct (THRESHOLDS !! style) as [sizes|] eqn:Es; simpl; [|reflexivity].
  destruct (sizes !! target_size) as [t|] eqn:Et; simpl; [|reflexivity].
  pose proof (THRESHOLDS_hundredths style sizes Es) as H.
  exact (H target_size t Et).
Qed.

Lemma threshold_absent (style : string) (target_size : Z) :
  THRESHOLDS !! style = None \/
  (exists sizes, THRESHOLDS !! style = Some sizes /\ sizes !! target_size = None) ->
  threshold style target_size = 54.21%Q.
Proof.
  unfold threshold. intros [->|(sizes & -> & H)]; simpl; [reflexivity|].
  now rewrite H.
Qed.

End NumberFacts.

(** ** Sets of names *)

Section SetFacts.

Lemma size_list_to_set_le (l : list string) :
  (size (list_to_set l : gset string) <= length l)%nat.
Proof.
  induction l as [|x l IH].
  - rewrite list_to_set_nil, size_empty. simpl. lia.
  - rewrite list_to_set_cons, size_union_alt, size_singleton. simpl.
    pose proof (subseteq_size (list_to_set l ∖ {[x]}) (list_to_set l : gset string)) as H.
    assert (Hs : (list_to_set l ∖ {[x]} : gset string) ⊆ list_to_set l) by set_solver.
    specialize (H Hs). lia.
Qed.

(** [len(set(names)) == len(names)] says that no name occurs twice. *)
Lemma size_list_to_set_NoDup (l : list string) :
  size (list_to_set l : gset string) = length l -> NoDup l.
Proof.
  induction l as [|x l IH]; intros H; [constructor|].
  rewrite list_to_set_cons in H. simpl in H.
  destruct (decide (x ∈ l)) as [Hin|Hnin].
  - exfalso.
    assert (E : ({[x]} ∪ list_to_set l : gset string) = list_to_set l) by set_solver.
    rewrite E in H. pose proof (size_list_to_set_le l). lia.
  - constructor; [exact Hnin|]. apply IH.
    rewrite size_union, size_singleton in H by set_solver. lia.
Qed.

(** A set of at least two names holds two different ones. *)
Lemma size_two_elems (X : gset string) :
  (2 <= size X)%nat -> exists x y, x ∈ X /\ y ∈ X /\ x <> y.
Proof.
  intros H.
  destruct (size_pos_elem_of X) as [x Hx]; [lia|].
  destruct (size_pos_elem_of (X ∖ {[x]})) as [y Hy].
  { rewrite size_difference by set_solver. rewrite size_singleton. lia. }
  exists x, y. set_solver.
Qed.

End SetFacts.

(** ** The slip search *)

Module SearchFacts.
Import FindBets Terms NumberFacts.

Lemma two_teams_of_size (combo : list Candidate) (s : Slip) :
  Legs s = combo ->
  ~ (size (list_to_set (map Team combo) : gset string) < 2)%nat ->
  two_teams s.
Proof.
  intros HL Hsz.
  destruct (size_two_elems (list_to_set (map Team combo))) as (x & y & Hx & Hy & Hxy);
    [lia|].
  apply elem_of_list_to_set, list_elem_of_fmap in Hx as (leg1 & -> & H1).
  apply elem_of_list_to_set, list_elem_of_fmap in Hy as (leg2 & -> & H2).
  exists leg1, leg2. rewrite HL. auto.
Qed.

(** The tests of STRATEGY 2 and 3 on a combination of [target_size] legs. *)
Lemma evaluate_spec (threshold : Q) (target_size : Z)
    (combo : list Candidate) (s : Slip) :
  Z.of_nat (length combo) = target_size ->
  evaluate threshold target_size combo = Ok (Some s) ->
  sound threshold target_size s /\ distinct_players s.
Proof.
  intros Hlen. unfold evaluate, truediv, mbind, result_bind.
  destruct (Qeq_bool (inject_Z target_size) 0); [discriminate|].
  destruct (Qle_bool _ threshold) eqn:Ethr; [discriminate|].
  destruct (bool_decide (Z.of_nat (size _) = target_size)) eqn:Epl;
    simpl; [|discriminate].
  destruct (bool_decide (size _ < 2)%nat) eqn:Etm; [discriminate|].
  intros [= <-].
  apply bool_decide_eq_true in Epl. apply bool_decide_eq_false in Etm.
  assert (Hgt : (threshold < Qsum (fair_pcts combo) / inject_Z target_size)%Q).
  { apply Qnot_le_lt. intros H. apply Qle_bool_iff in H. congruence. }
  repeat split; simpl.
  - exact Hlen.
  - unfold mean_pct. now rewrite Hlen.
  - unfold mean_pct. now rewrite Hlen.
  - eapply two_teams_of_size; [reflexivity|exact Etm].
  - unfold distinct_players. simpl.
    apply (NoDup_fmap_1 (fun x : string => x)). rewrite list_fmap_id.
    apply size_list_to_set_NoDup. rewrite length_map. lia.
Qed.

Lemma evaluate_total (threshold : Q) (target_size : Z) (combo : list Candidate) :
  target_size <> 0 ->
  evaluate threshold target_size combo = Ok (accepted threshold target_size combo).
Proof.
  intros Hs. unfold accepted.
  destruct (evaluate threshold target_size combo) as [found|e] eqn:E; [reflexivity|].
  exfalso. unfold evaluate in E.
  rewrite truediv_ok in E by (apply NovigFacts.inject_Z_nonzero; exact Hs).
  simpl in E. repeat (destruct (_ : bool) in E; try discriminate).
Qed.

Lemma evaluate_zero (threshold : Q) (combo : list Candidate) :
  evaluate threshold 0 combo = Raise ZeroDivisionError.
Proof. reflexivity. Qed.

(** *** STRATEGY 1 *)

Lemma scan_partner_spec (threshold : Q) (leg1 : Candidate)
    (search_pool : list Candidate) (indices : list nat) (i : nat) (s : Slip) :
  scan_partner threshold leg1 search_pool indices = Some (i, s) ->
  sound threshold 2 s /\
  exists leg2, search_pool !! i = Some leg2 /\ Legs s = [leg1; leg2] /\
               Team leg1 <> Team leg2.
Proof.
  induction indices as [|k indices IH]; simpl; [discriminate|].
  destruct (search_pool !! k) as [leg2|] eqn:Ek; [|discriminate].
  destruct (Qle_bool _ threshold) eqn:Ethr; [exact IH|].
  destruct (bool_decide (Team leg1 = Team leg2)) eqn:Etm; [exact IH|].
  intros [= <- <-].
  apply bool_decide_eq_false in Etm.
  assert (Hgt : (threshold < (Fair_Win_Pct leg1 + Fair_Win_Pct leg2) / 2)%Q).
  { apply Qnot_le_lt. intros H. apply Qle_bool_iff in H. congruence. }
  assert (Hmean : ((Fair_Win_Pct leg1 + Fair_Win_Pct leg2) / 2
                   == mean_pct [leg1; leg2])%Q).
  { unfold mean_pct. simpl. field. }
  split.
  - repeat split; simpl.
    + now apply round2_comp.
    + now rewrite <- Hmean.
    + exists leg1, leg2. simpl. set_solver.
  - exists leg2. auto.
Qed.

Lemma pair_loop_sound (threshold : Q) (search_pool : list Candidate)
    (all_valid_slips : list Slip) :
  Forall (sound threshold 2) all_valid_slips ->
  Forall (sound threshold 2) (pair_loop threshold search_pool all_valid_slips).
Proof.
  funelim (pair_loop threshold search_pool all_valid_slips); intros Hacc;
    try assumption.
  - apply H. apply Forall_app. split; [exact Hacc|].
    constructor; [|constructor].
    eapply scan_partner_spec. exact Heq.
  - apply H. exact Hacc.
Qed.

(** *** STRATEGY 2 *)

Lemma combinations_spec {A : Type} (r : nat) (pool combo : list A) :
  combo ∈ combinations r pool -> length combo = r /\ combo `sublist_of` pool.
Proof.
  revert r combo. induction pool as [|x pool IH]; intros [|r] combo; simpl.
  - intros ->%list_elem_of_singleton. split; [reflexivity|constructor].
  - intros H. inversion H.
  - intros ->%list_elem_of_singleton. split; [reflexivity|apply sublist_nil_l].
  - intros [H|H]%elem_of_app.
    + apply list_elem_of_fmap in H as (c & -> & Hc).
      apply IH in Hc as [Hl Hs]. split; [simpl; lia|now constructor].
    + apply IH in H as [Hl Hs]. split; [exact Hl|now constructor].
Qed.

Lemma combinations_zero {A : Type} (pool : list A) : combinations 0 pool = [[]].
Proof. destruct pool; reflexivity. Qed.

Lemma examined_nil (limit_check : Z) : examined limit_check [] = 0%nat.
Proof. unfold examined. simpl. lia. Qed.

Lemma examined_stop (limit_check : Z) (combos : list (list Candidate)) :
  3000000 < limit_check + 1 -> examined limit_check combos = 0%nat.
Proof. unfold examined. lia. Qed.

Lemma examined_cons (limit_check : Z) (combo : list Candidate)
    (combos : list (list Candidate)) :
  limit_check + 1 <= 3000000 ->
  examined limit_check (combo :: combos) = S (examined (limit_check + 1) combos).
Proof. unfold examined. simpl length. lia. Qed.

Lemma brute_loop_spec (threshold : Q) (target_size : Z)
    (combos : list (list Candidate)) (limit_check : Z)
    (all_valid_slips : list Slip) :
  target_size <> 0 ->
  (length all_valid_slips < 2000)%nat ->
  brute_loop threshold target_size combos limit_check all_valid_slips =
    Ok (take 2000 (all_valid_slips ++
          omap (accepted threshold target_size)
               (take (examined limit_check combos) combos))).
Proof.
  intros Hs. revert limit_check all_valid_slips.
  induction combos as [|combo combos IH]; intros limit_check acc Hacc.
  - simpl. rewrite examined_nil. simpl.
    rewrite app_nil_r, take_ge by lia. reflexivity.
  - cbn [brute_loop].
    destruct (3000000 <? limit_check + 1) eqn:El.
    + apply Z.ltb_lt in El. rewrite examined_stop by exact El. simpl.
      rewrite app_nil_r, take_ge by lia. reflexivity.
    + apply Z.ltb_ge in El. rewrite examined_cons by exact El.
      rewrite evaluate_total by exact Hs.
      cbn [mbind result_bind take omap list_omap].
      destruct (accepted threshold target_size combo) as [slip|].
      * set (rest := omap _ (take _ combos)).
        replace (acc ++ slip :: rest) with ((acc ++ [slip]) ++ rest)
          by (now rewrite <- app_assoc).
        subst rest.
        destruct (2000 <=? Z.of_nat (length (acc ++ [slip]))) eqn:Efull.
        -- apply Z.leb_le in Efull. rewrite length_app in Efull. simpl in Efull.
           rewrite take_app_length'; [reflexivity|].
           rewrite length_app. simpl. lia.
        -- apply Z.leb_gt in Efull. rewrite length_app in Efull. simpl in Efull.
           apply IH. rewrite length_app. simpl. lia.
      * apply IH. exact Hacc.
Qed.

(** *** STRATEGY 3 *)

Lemma draw_length {A : Type} (k : nat) (choices : list nat) (population : list A) :
  (k <= length population)%nat -> length (draw k choices population) = k.
Proof.
  revert choices population.
  induction k as [|k IH]; intros choices population Hk; simpl; [reflexivity|].
  assert (Hj : (hd 0 choices `mod` length population < length population)%nat).
  { apply Nat.mod_upper_bound. lia. }
  destruct (lookup_lt_is_Some_2 population _ Hj) as [x ->]. simpl.
  rewrite IH; [reflexivity|].
  rewrite length_delete by (eapply lookup_lt_is_Some_2, Hj). lia.
Qed.

Lemma sample_length {A : Type} (choices : list nat) (population combo : list A)
    (k : Z) :
  sample choices population k = Ok combo -> Z.of_nat (length combo) = k.
Proof.
  unfold sample.
  destruct (k <? 0) eqn:E1; [discriminate|].
  destruct (Z.of_nat (length population) <? k) eqn:E2; [discriminate|].
  simpl. intros [= <-].
  apply Z.ltb_ge in E1, E2. rewrite draw_length; lia.
Qed.

Section MonteCarloFacts.
Variable rand : N -> list nat.

Lemma trial_step_sound (threshold : Q) (target_size : Z)
    (pool : list Candidate) (st : Trials) :
  target_size <> 0 ->
  all_sound threshold target_size st ->
  all_sound threshold target_size (trial_step rand threshold target_size pool st).
Proof.
  intros Hs (slips & Hst & Hall). unfold trial_step.
  destruct (stopped st); [now exists slips|].
  rewrite Hst.
  destruct (sample _ pool target_size) as [combo|e] eqn:Esample.
  - rewrite evaluate_total by exact Hs. cbn [mbind result_bind].
    destruct (accepted threshold target_size combo) as [slip|] eqn:Eacc.
    + exists (slips ++ [slip]). split; [reflexivity|].
      apply Forall_app. split; [exact Hall|].
      constructor; [|constructor].
      apply (evaluate_spec threshold target_size combo).
      * eapply sample_length, Esample.
      * rewrite evaluate_total by exact Hs. now rewrite Eacc.
    + now exists slips.
  - now exists slips.
Qed.

Lemma monte_carlo_sound (threshold : Q) (target_size : Z) (pool : list Candidate) :
  target_size <> 0 ->
  exists slips : list Slip,
    monte_carlo rand threshold target_size pool = Ok slips /\
    Forall (fun s => sound threshold target_size s /\ distinct_players s) slips.
Proof.
  intros Hs. unfold monte_carlo.
  apply (N.iter_invariant iterations _ _ (all_sound threshold target_size)).
  - intros st. now apply trial_step_sound.
  - exists []. split; [reflexivity|constructor].
Qed.

(** A pool smaller than the slip stops the sampling at once. *)
Lemma monte_carlo_small_pool (threshold : Q) (target_size : Z)
    (pool : list Candidate) :
  Z.of_nat (length pool) < target_size ->
  monte_carlo rand threshold target_size pool = Ok [].
Proof.
  intros Hsmall. unfold monte_carlo.
  apply (N.iter_invariant iterations _ _
           (fun st => found_slips st = Ok [])); [|reflexivity].
  intros st Hst. unfold trial_step.
  destruct (stopped st); [exact Hst|]. rewrite Hst.
  unfold sample.
  assert (E : (Z.of_nat (length pool) <? target_size) = true) by (apply Z.ltb_lt; lia).
  rewrite E, orb_true_r. reflexivity.
Qed.

End MonteCarloFacts.

End SearchFacts.

(** ** Ranking and removal of overlaps *)

Module RankFacts.
Import FindBets Terms.

Lemma leg_disjoint_nil : leg_disjoint [].
Proof. intros i j s t x Hi. destruct i; discriminate. Qed.

Lemma leg_disjoint_snoc (slips : list Slip) (slip : Slip) :
  leg_disjoint slips ->
  (forall s, s ∈ slips -> Leg_Ids s ## Leg_Ids slip) ->
  leg_disjoint (slips ++ [slip]).
Proof.
  intros Hd Hnew i j s t x Hi Hj Hxs Hxt.
  apply lookup_snoc_Some in Hi as [[Hil Hi]|[-> <-]];
    apply lookup_snoc_Some in Hj as [[Hjl Hj]|[-> <-]].
  - eapply Hd; eassumption.
  - exfalso. pose proof (Hnew s (list_elem_of_lookup_2 _ _ _ Hi)). set_solver.
  - exfalso. pose proof (Hnew t (list_elem_of_lookup_2 _ _ _ Hj)). set_solver.
  - reflexivity.
Qed.

(** The loop keeps [final_slips] free of overlaps, within the cap, and
    made of slips it was given. *)
Lemma select_loop_spec (slips final_slips : list Slip) (used_prop_ids : gset string) :
  leg_disjoint final_slips ->
  (forall s, s ∈ final_slips -> Leg_Ids s ⊆ used_prop_ids) ->
  leg_disjoint (select_loop slips final_slips used_prop_ids) /\
  (forall s, s ∈ select_loop slips final_slips used_prop_ids ->
             s ∈ final_slips \/ s ∈ slips).
Proof.
  revert final_slips used_prop_ids.
  induction slips as [|slip slips IH]; intros final used Hd Hused; simpl.
  - split; [exact Hd|]. intros s Hs. now left.
  - destruct (bool_decide (Leg_Ids slip ∩ used = ∅)) eqn:Efree.
    + apply bool_decide_eq_true in Efree.
      assert (Hd' : leg_disjoint (final ++ [slip])).
      { apply leg_disjoint_snoc; [exact Hd|].
        intros s Hs. specialize (Hused s Hs). set_solver. }
      destruct (1000 <=? Z.of_nat (length (final ++ [slip]))).
      * split; [exact Hd'|]. intros s [Hs|Hs]%elem_of_app; [now left|].
        right. apply list_elem_of_singleton in Hs as ->. left.
      * destruct (IH (final ++ [slip]) (used ∪ Leg_Ids slip) Hd') as [Hr Hin].
        { intros s [Hs|Hs]%elem_of_app.
          - specialize (Hused s Hs). set_solver.
          - apply list_elem_of_singleton in Hs as ->. set_solver. }
        split; [exact Hr|]. intros s Hs.
        destruct (Hin s Hs) as [[H|H]%elem_of_app|H].
        -- now left.
        -- right. apply list_elem_of_singleton in H as ->. left.
        -- right. now right.
    + destruct (1000 <=? Z.of_nat (length final)).
      * split; [exact Hd|]. intros s Hs. now left.
      * destruct (IH final used Hd Hused) as [Hr Hin].
        split; [exact Hr|]. intros s Hs.
        destruct (Hin s Hs) as [H|H]; [now left|right; now right].
Qed.

Lemma rank_spec (all_valid_slips : list Slip) :
  leg_disjoint (rank all_valid_slips) /\
  (forall s, s ∈ rank all_valid_slips -> s ∈ all_valid_slips).
Proof.
  unfold rank.
  destruct (select_loop_spec (sort_desc Avg_Win_Pct all_valid_slips) [] ∅)
    as [Hd Hin].
  - apply leg_disjoint_nil.
  - intros s Hs. inversion Hs.
  - split; [exact Hd|]. intros s Hs.
    destruct (Hin s Hs) as [H|H]; [inversion H|].
    now rewrite sort_desc_perm in H.
Qed.

End RankFacts.

(** ** [get_slips] and [dashboard] *)

Module EngineFacts.
Import FindBets Terms NumberFacts SearchFacts RankFacts ViewFacts.

Section WithRuntime.
Variable float_of_str : string -> result pyfloat.
Variable rand : N -> list nat.

Lemma brute_force_spec (threshold : Q) (target_size : Z) (pool : list Candidate) :
  1 <= target_size ->
  brute_force threshold target_size pool =
    Ok (take 2000
          (omap (accepted threshold target_size)
             (take (examined 0 (combinations (Z.to_nat target_size) pool))
                   (combinations (Z.to_nat target_size) pool)))).
Proof.
  intros Hs. unfold brute_force.
  destruct (target_size <? 0) eqn:E; [apply Z.ltb_lt in E; lia|].
  rewrite brute_loop_spec by (simpl; lia). reflexivity.
Qed.

Lemma brute_force_sound (threshold : Q) (target_size : Z) (pool : list Candidate) :
  1 <= target_size ->
  exists slips : list Slip,
    brute_force threshold target_size pool = Ok slips /\
    Forall (fun s => sound threshold target_size s /\ distinct_players s) slips.
Proof.
  intros Hs. eexists. split; [now apply brute_force_spec|].
  apply Forall_forall. intros s Hin.
  apply subseteq_take, list_elem_of_omap in Hin as (combo & Hc & Hacc).
  apply subseteq_take, combinations_spec in Hc as [Hlen _].
  apply (evaluate_spec threshold target_size combo); [lia|].
  rewrite evaluate_total by lia. now rewrite Hacc.
Qed.

(** What every strategy guarantees for the slips it finds. *)
Lemma search_sound (target_size : Z) (style : string) (pool : list Candidate) :
  1 <= target_size ->
  exists all_valid_slips : list Slip,
    search rand target_size style pool = Ok all_valid_slips /\
    Forall (sound (threshold style target_size) target_size) all_valid_slips /\
    (~ (target_size = 2 /\ style = "power") ->
     Forall distinct_players all_valid_slips).
Proof.
  intros Hs. unfold search.
  destruct (bool_decide (target_size = 2)) eqn:E2;
    [destruct (bool_decide (style = "power")) eqn:Ep|]; simpl.
  - apply bool_decide_eq_true in E2, Ep. subst target_size.
    eexists. split; [reflexivity|]. split.
    + apply pair_loop_sound. constructor.
    + intros H. exfalso. apply H. auto.
  - apply bool_decide_eq_false in Ep.
    destruct (5 <=? target_size) eqn:E5; simpl.
    + destruct (monte_carlo_sound rand (threshold style target_size) target_size
                  (sort_desc Fair_Win_Pct pool)) as (slips & -> & Hall); [lia|].
      exists slips. split; [reflexivity|].
      split; [|intros _]; eapply Forall_impl; try exact Hall; simpl; tauto.
    + destruct (brute_force_sound (threshold style target_size) target_size
                  (sort_desc Fair_Win_Pct pool)) as (slips & -> & Hall); [lia|].
      exists slips. split; [reflexivity|].
      split; [|intros _]; eapply Forall_impl; try exact Hall; simpl; tauto.
  - destruct (5 <=? target_size) eqn:E5; simpl.
    + destruct (monte_carlo_sound rand (threshold style target_size) target_size
                  (sort_desc Fair_Win_Pct pool)) as (slips & -> & Hall); [lia|].
      exists slips. split; [reflexivity|].
      split; [|intros _]; eapply Forall_impl; try exact Hall; simpl; tauto.
    + destruct (brute_force_sound (threshold style target_size) target_size
                  (sort_desc Fair_Win_Pct pool)) as (slips & -> & Hall); [lia|].
      exists slips. split; [reflexivity|].
      split; [|intros _]; eapply Forall_impl; try exact Hall; simpl; tauto.
Qed.

(** From five legs on the search is the sampling. *)
Lemma search_samples (target_size : Z) (style : string) (pool : list Candidate) :
  5 <= target_size ->
  search rand target_size style pool =
    monte_carlo rand (threshold style target_size) target_size
      (sort_desc Fair_Win_Pct pool).
Proof.
  intros Hs. unfold search.
  rewrite (bool_decide_eq_false_2 (target_size = 2)) by lia.
  assert (E5 : (5 <=? target_size) = true) by (apply Z.leb_le; lia).
  rewrite E5. reflexivity.
Qed.

(** For two legs and more [get_slips] returns a list: slips of the search,
    free of overlaps. *)
Lemma get_slips_sound (files : list CsvFile) (target_size : Z) (style : string) :
  2 <= target_size ->
  exists slips : list Slip,
    get_slips float_of_str rand files target_size style = Ok slips /\
    leg_disjoint slips /\
    Forall (sound (threshold style target_size) target_size) slips /\
    (~ (target_size = 2 /\ style = "power") -> Forall distinct_players slips).
Proof.
  intros Hs. rewrite get_slips_pool.
  destruct (pool_of float_of_str files) as [|c pool].
  { exists []. split; [reflexivity|]. split; [apply leg_disjoint_nil|].
    split; [constructor|]. intros _. constructor. }
  cbv zeta.
  destruct (bool_decide (target_size = 1)) eqn:E1;
    [apply bool_decide_eq_true in E1; lia|].
  destruct (search_sound target_size style (c :: pool))
    as (raw & -> & Hsound & Hplayers); [lia|].
  cbn [mbind result_bind].
  destruct (rank_spec raw) as [Hd Hin].
  exists (rank raw). split; [reflexivity|]. split; [exact Hd|].
  split.
  - apply Forall_forall. intros s Hs'. rewrite Forall_forall in Hsound.
    apply Hsound, Hin, Hs'.
  - intros Hne. specialize (Hplayers Hne).
    apply Forall_forall. intros s Hs'. rewrite Forall_forall in Hplayers.
    apply Hplayers, Hin, Hs'.
Qed.

(** From one leg on, [get_slips] returns a list. *)
Lemma get_slips_total (files : list CsvFile) (target_size : Z) (style : string) :
  1 <= target_size ->
  exists slips : list Slip,
    get_slips float_of_str rand files target_size style = Ok slips.
Proof.
  intros Hs. destruct (decide (target_size = 1)) as [->|Hne].
  - eexists. apply get_slips_single.
  - destruct (get_slips_sound files target_size style) as (slips & H & _); [lia|].
    now exists slips.
Qed.

End WithRuntime.

End EngineFacts.

(** ** The slips [get_slips] returns *)

Module SlipFacts.
Import FindBets Terms NumberFacts SearchFacts RankFacts ViewFacts EngineFacts.

(** C1, as stated, fails: the three candidates at 55.05, 55.05 and 55.06
    have the mean 55.0533..., above the threshold 55.05 of a power slip of
    three, and the slip is returned with the rounded average 55.05, which
    does not exceed the threshold. *)
Lemma rounded_average_at_threshold :
  exists s : Slip,
    get_slips decimal_float Samples.first_left
      (Samples.one_file Samples.near_threshold) 3 "power" = Ok [s] /\
    Avg_Win_Pct s = round2 (mean_pct (Legs s)) /\
    ~ (threshold "power" 3 < Avg_Win_Pct s)%Q.
Proof.
  eexists. split; [vm_compute; reflexivity|].
  split; [vm_compute; reflexivity|].
  vm_compute. discriminate.
Qed.

(** C1, amended.  For a target size of 2 or more [get_slips] returns a
    list, and every slip in it has [target_size] legs, a mean of the legs'
    [Fair_Win_Pct] strictly above the threshold of the style and size, and
    as [Avg_Win_Pct] that mean rounded to hundredths, which is at least the
    threshold.  The threshold is 54.21 where the table has no entry. *)
Theorem threshold_invariant (float_of_str : string -> result pyfloat)
    (rand : N -> list nat) (files : list CsvFile) (target_size : Z)
    (style : string) :
  2 <= target_size ->
  (exists slips : list Slip,
     get_slips float_of_str rand files target_size style = Ok slips /\
     forall s : Slip, s ∈ slips ->
       Z.of_nat (length (Legs s)) = target_size /\
       (threshold style target_size < mean_pct (Legs s))%Q /\
       Avg_Win_Pct s = round2 (mean_pct (Legs s)) /\
       (threshold style target_size <= Avg_Win_Pct s)%Q) /\
  (THRESHOLDS !! style = None \/
   (exists sizes, THRESHOLDS !! style = Some sizes /\ sizes !! target_size = None) ->
   threshold style target_size = 54.21%Q).
Proof.
  intros Hs. split; [|apply threshold_absent].
  destruct (get_slips_sound float_of_str rand files target_size style Hs)
    as (slips & Hget & _ & Hsound & _).
  exists slips. split; [exact Hget|].
  intros s Hin. rewrite Forall_forall in Hsound.
  destruct (Hsound s Hin) as [(Hlen & Havg & Hgt & _) _].
  split; [exact Hlen|]. split; [exact Hgt|]. split; [exact Havg|].
  rewrite Havg. apply round2_ge; [apply threshold_den|exact Hgt].
Qed.

Lemma threshold_invariant_witness :
  exists slips : list Slip,
    get_slips decimal_float Samples.first_left
      (Samples.one_file Samples.two_quotes) 2 "power" = Ok slips /\
    forall s : Slip, s ∈ slips ->
      Z.of_nat (length (Legs s)) = 2 /\
      (threshold "power" 2 < mean_pct (Legs s))%Q /\
      Avg_Win_Pct s = round2 (mean_pct (Legs s)) /\
      (threshold "power" 2 <= Avg_Win_Pct s)%Q.
Proof.
  apply (threshold_invariant decimal_float Samples.first_left
           (Samples.one_file Samples.two_quotes) 2 "power").
  lia.
Defined.

(** C2 at the input where the greedy pairing breaks it: two quotes of one
    player name under two teams are paired into one slip. *)
Theorem pairing_same_player :
  exists (s : Slip) (leg1 leg2 : Candidate),
    get_slips decimal_float Samples.first_left
      (Samples.one_file Samples.namesakes) 2 "power" = Ok [s] /\
    Legs s = [leg1; leg2] /\
    Player leg1 = Player leg2 /\
    ~ distinct_players s.
Proof.
  eexists. eexists. eexists.
  split; [vm_compute; reflexivity|].
  split; [reflexivity|]. split; [reflexivity|].
  unfold distinct_players. simpl. intros H.
  apply NoDup_cons in H as [H _]. apply H. left.
Qed.

(** The part of C2 the code keeps: every returned slip of two legs or more
    has legs on two teams, and, the greedy pairing apart, pairwise distinct
    players. *)
Lemma slip_validity (float_of_str : string -> result pyfloat)
    (rand : N -> list nat) (files : list CsvFile) (target_size : Z)
    (style : string) :
  2 <= target_size ->
  exists slips : list Slip,
    get_slips float_of_str rand files target_size style = Ok slips /\
    Forall two_teams slips /\
    (~ (target_size = 2 /\ style = "power") -> Forall distinct_players slips).
Proof.
  intros Hs.
  destruct (get_slips_sound float_of_str rand files target_size style Hs)
    as (slips & Hget & _ & Hsound & Hplayers).
  exists slips. split; [exact Hget|]. split; [|exact Hplayers].
  eapply Forall_impl; [exact Hsound|]. intros s [_ H]. exact H.
Qed.

(** C3, as stated, fails for size 1: a quote that was loaded twice gives
    two entries of the single prop view with the same id. *)
Lemma single_view_repeats_id :
  exists slips : list Slip,
    get_slips decimal_float Samples.first_left
      (Samples.one_file Samples.repeated) 1 "props" = Ok slips /\
    ~ leg_disjoint slips.
Proof.
  eexists. split; [vm_compute; reflexivity|].
  intros H.
  specialize (H 0%nat 1%nat _ _ "A_Points" eq_refl eq_refl).
  assert (Hin : "A_Points" ∈ ({[ "A_Points" ]} : gset string)) by set_solver.
  specialize (H Hin Hin). discriminate H.
Qed.

(** C3, amended.  For a target size of 2 or more [get_slips] returns a
    list in which no candidate id occurs in the leg ids of two slips. *)
Theorem ranked_slips_disjoint (float_of_str : string -> result pyfloat)
    (rand : N -> list nat) (files : list CsvFile) (target_size : Z)
    (style : string) :
  2 <= target_size ->
  exists slips : list Slip,
    get_slips float_of_str rand files target_size style = Ok slips /\
    leg_disjoint slips.
Proof.
  intros Hs.
  destruct (get_slips_sound float_of_str rand files target_size style Hs)
    as (slips & Hget & Hd & _).
  now exists slips.
Qed.

Lemma ranked_slips_disjoint_witness :
  exists slips : list Slip,
    get_slips decimal_float Samples.first_left
      (Samples.one_file Samples.repeated) 2 "flex" = Ok slips /\
    leg_disjoint slips.
Proof.
  apply (ranked_slips_disjoint decimal_float Samples.first_left
           (Samples.one_file Samples.repeated) 2 "flex").
  lia.
Defined.

End SlipFacts.

(** ** Exceptions, bounds and the random source *)

Module RunFacts.
Import FindBets Terms NumberFacts SearchFacts RankFacts ViewFacts EngineFacts.

(** C6 at the input where the code breaks it: the request [size=0] on a
    table with candidates makes [dashboard] raise ZeroDivisionError. *)
Theorem dashboard_size_zero_raises :
  dashboard decimal_float decimal_int Samples.first_left
    (Samples.one_file Samples.two_quotes)
    {| arg_style := Some "power"; arg_size := Some "0" |}
  = Raise ZeroDivisionError.
Proof. vm_compute. reflexivity. Qed.

Section WithRuntime.
Variable float_of_str : string -> result pyfloat.
Variable int_of_str : string -> result Z.
Variable rand : N -> list nat.

(** Size 0 raises on every table that has a candidate, ... *)
Lemma get_slips_size_zero (files : list CsvFile) (style : string) :
  pool_of float_of_str files <> [] ->
  get_slips float_of_str rand files 0 style = Raise ZeroDivisionError.
Proof.
  intros Hpool. rewrite get_slips_pool.
  destruct (pool_of float_of_str files) as [|c pool]; [contradiction|].
  cbv zeta. rewrite bool_decide_eq_false_2 by lia.
  unfold search. rewrite (bool_decide_eq_false_2 (0 = 2)) by lia.
  simpl. unfold brute_force. simpl. rewrite combinations_zero.
  reflexivity.
Qed.

(** ... and so does every negative size. *)
Lemma get_slips_size_negative (files : list CsvFile) (target_size : Z)
    (style : string) :
  target_size < 0 ->
  pool_of float_of_str files <> [] ->
  get_slips float_of_str rand files target_size style = Raise ValueError.
Proof.
  intros Hneg Hpool. rewrite get_slips_pool.
  destruct (pool_of float_of_str files) as [|c pool]; [contradiction|].
  cbv zeta. rewrite bool_decide_eq_false_2 by lia.
  unfold search. rewrite (bool_decide_eq_false_2 (target_size = 2)) by lia.
  assert (E5 : (5 <=? target_size) = false) by (apply Z.leb_gt; lia).
  rewrite E5. simpl. unfold brute_force.
  assert (E0 : (target_size <? 0) = true) by (apply Z.ltb_lt; lia).
  now rewrite E0.
Qed.

(** From size 1 on, [dashboard] answers whatever the style and the table. *)
Lemma dashboard_total (files : list CsvFile) (request : Request) (n : Z) :
  int_of_str (default "6" (arg_size request)) = Ok n -> 1 <= n ->
  exists slips style,
    dashboard float_of_str int_of_str rand files request = Ok (slips, n, style).
Proof.
  intros Hn Hpos. unfold dashboard. rewrite Hn.
  match goal with
  | |- context [get_slips _ _ _ _ ?st] =>
      destruct (get_slips_total float_of_str rand files n st Hpos) as [slips ->]
  end.
  eexists _, _. reflexivity.
Qed.

(** A size that is no number is replaced by 6. *)
Lemma dashboard_bad_size (files : list CsvFile) (request : Request) (e : PyExn) :
  int_of_str (default "6" (arg_size request)) = Raise e ->
  exists slips style,
    dashboard float_of_str int_of_str rand files request = Ok (slips, 6, style).
Proof.
  intros Hn. unfold dashboard. rewrite Hn.
  match goal with
  | |- context [get_slips _ _ _ _ ?st] =>
      destruct (get_slips_total float_of_str rand files 6 st) as [slips ->];
        [lia|]
  end.
  eexists _, _. reflexivity.
Qed.

End WithRuntime.

(** C8.  STRATEGY 2 looks at the combinations in the order
    [itertools.combinations] yields them, each a subsequence of the pool,
    at no more than the first 3,000,000 of them, and returns the first
    2,000 slips these give; so it returns at most 2,000 slips. *)
Theorem brute_force_bounds (threshold : Q) (target_size : Z)
    (pool : list Candidate) :
  1 <= target_size ->
  let combos := combinations (Z.to_nat target_size) pool in
  let seen := take (Z.to_nat (Z.min 3000000 (Z.of_nat (length combos)))) combos in
  exists slips : list Slip,
    brute_force threshold target_size pool = Ok slips /\
    slips = take 2000 (omap (accepted threshold target_size) seen) /\
    (length slips <= 2000)%nat /\
    Z.of_nat (length seen) <= 3000000 /\
    (forall combo, combo ∈ combos -> combo `sublist_of` pool).
Proof.
  intros Hs combos seen. eexists.
  split; [now apply brute_force_spec|].
  split; [reflexivity|].
  split; [rewrite length_take; lia|].
  split; [subst seen; rewrite length_take; lia|].
  intros combo Hin. now apply combinations_spec in Hin.
Qed.

Lemma brute_force_bounds_witness :
  exists slips : list Slip,
    brute_force 54.21 2 (pool_of decimal_float (Samples.one_file Samples.two_quotes))
      = Ok slips /\
    (length slips <= 2000)%nat.
Proof.
  destruct (brute_force_bounds 54.21 2
              (pool_of decimal_float (Samples.one_file Samples.two_quotes)))
    as (slips & H & _ & Hlen & _); [lia|].
  exists slips. split; [exact H|exact Hlen].
Defined.

End RunFacts.

(** ** The random source *)

Module RandomFacts.
Import FindBets Terms NumberFacts SearchFacts RankFacts ViewFacts EngineFacts.

Lemma rank_nil : rank [] = [].
Proof. reflexivity. Qed.

Lemma rank_singleton (s : Slip) : rank [s] = [s].
Proof.
  unfold rank. simpl.
  rewrite bool_decide_eq_true_2 by set_solver. reflexivity.
Qed.

(** Below five legs the random source is never consulted. *)
Lemma get_slips_ignores_rand (float_of_str : string -> result pyfloat)
    (rand1 rand2 : N -> list nat) (files : list CsvFile) (target_size : Z)
    (style : string) :
  target_size < 5 ->
  get_slips float_of_str rand1 files target_size style =
  get_slips float_of_str rand2 files target_size style.
Proof.
  intros Hs. rewrite !get_slips_pool.
  destruct (pool_of float_of_str files) as [|c pool]; [reflexivity|].
  cbv zeta. destruct (bool_decide (target_size = 1)); [reflexivity|].
  unfold search.
  assert (E5 : (5 <=? target_size) = false) by (apply Z.leb_gt; lia).
  rewrite E5. cbn [negb]. reflexivity.
Qed.

(** With five draws of the second element left, the candidate at 60 stays
    out and the mean 53.6 is below the threshold. *)
Lemma never_best_finds_nothing :
  monte_carlo Samples.never_best (threshold "flex" 5) 5 Samples.six_pool = Ok [].
Proof.
  unfold monte_carlo.
  apply (N.iter_invariant iterations _ _
           (fun st => found_slips st = Ok [] /\ stopped st = false)).
  - intros st [Hfound Hrun]. unfold trial_step. rewrite Hrun, Hfound.
    split; vm_compute; reflexivity.
  - split; reflexivity.
Qed.

(** When trial 0 draws the first five, the candidate at 60 is among them
    and the slip is found; no later trial adds one. *)
Lemma best_first_finds_one :
  exists s : Slip,
    monte_carlo Samples.best_first (threshold "flex" 5) 5 Samples.six_pool = Ok [s].
Proof.
  unfold monte_carlo. change iterations with (N.succ 199999).
  rewrite N.iter_succ_r.
  assert (Hfirst : exists s : Slip,
            trial_step Samples.best_first (threshold "flex" 5) 5 Samples.six_pool
              {| trial := 0; found_slips := Ok []; stopped := false |}
            = {| trial := 1; found_slips := Ok [s]; stopped := false |}).
  { eexists. vm_compute. reflexivity. }
  destruct Hfirst as [s ->]. exists s.
  apply (N.iter_invariant 199999 _ _
           (fun st => found_slips st = Ok [s] /\ stopped st = false /\
                      (trial st =? 0)%N = false)).
  - intros st (Hfound & Hrun & Hlater). unfold trial_step.
    rewrite Hrun, Hfound. unfold Samples.best_first. rewrite Hlater.
    split; [|split].
    + change (sample [1; 1; 1; 1; 1]%nat Samples.six_pool 5)
        with (Ok (draw 5 [1; 1; 1; 1; 1]%nat Samples.six_pool)).
      cbn [found_slips].
      assert (Hnone : evaluate (threshold "flex" 5) 5
                        (draw 5 [1; 1; 1; 1; 1]%nat Samples.six_pool) = Ok None)
        by (vm_compute; reflexivity).
      now rewrite Hnone.
    + vm_compute. reflexivity.
    + change (sample [1; 1; 1; 1; 1]%nat Samples.six_pool 5)
        with (Ok (draw 5 [1; 1; 1; 1; 1]%nat Samples.six_pool)).
      cbn [trial]. apply N.eqb_neq. lia.
  - repeat split; reflexivity.
Qed.

Lemma six_pool_search (rand : N -> list nat) :
  get_slips decimal_float rand (Samples.one_file Samples.six_quotes) 5 "flex" =
    all_valid_slips ← monte_carlo rand (threshold "flex" 5) 5 Samples.six_pool;
    Ok (rank all_valid_slips).
Proof.
  rewrite get_slips_pool.
  assert (Hpool : exists c pool,
            pool_of decimal_float (Samples.one_file Samples.six_quotes) = c :: pool)
    by (eexists _, _; vm_compute; reflexivity).
  destruct Hpool as (c & pool & Hpool).
  unfold Samples.six_pool. rewrite Hpool. cbv zeta.
  rewrite bool_decide_eq_false_2 by lia.
  rewrite search_samples by lia. reflexivity.
Qed.

(** C10.  For a target size from 1 to 4, [get_slips] returns the same for
    any two random sources: its result is a function of the files, the
    size and the style.  At size 5 it is not: on the table
    [Samples.six_quotes] one random source gives no slip and another
    gives one. *)
Theorem deterministic_below_five (float_of_str : string -> result pyfloat)
    (rand1 rand2 : N -> list nat) (files : list CsvFile) (target_size : Z)
    (style : string) :
  1 <= target_size <= 4 ->
  get_slips float_of_str rand1 files target_size style =
  get_slips float_of_str rand2 files target_size style /\
  get_slips decimal_float Samples.never_best
    (Samples.one_file Samples.six_quotes) 5 "flex" <>
  get_slips decimal_float Samples.best_first
    (Samples.one_file Samples.six_quotes) 5 "flex".
Proof.
  intros Hs. split; [apply get_slips_ignores_rand; lia|].
  rewrite !six_pool_search, never_best_finds_nothing.
  destruct best_first_finds_one as [s ->].
  cbn [mbind result_bind]. rewrite rank_nil, rank_singleton. discriminate.
Qed.

Lemma deterministic_below_five_witness :
  get_slips decimal_float Samples.never_best
    (Samples.one_file Samples.two_quotes) 3 "flex" =
  get_slips decimal_float Samples.best_first
    (Samples.one_file Samples.two_quotes) 3 "flex".
Proof.
  apply (deterministic_below_five decimal_float Samples.never_best
           Samples.best_first (Samples.one_file Samples.two_quotes) 3 "flex").
  lia.
Defined.

End RandomFacts.

(** ** The pool behind the slips *)

Module OriginFacts.
Import FindBets Terms Origin NumberFacts SearchFacts RankFacts ViewFacts EngineFacts.

Lemma all_legs_snoc (slips : list Slip) (s : Slip) :
  all_legs (slips ++ [s]) = all_legs slips ++ Legs s.
Proof.
  unfold all_legs. rewrite map_app, concat_app. simpl. now rewrite app_nil_r.
Qed.

Lemma legs_in_all_legs (slips : list Slip) (s : Slip) :
  s ∈ slips -> Legs s ⊆+ all_legs slips.
Proof.
  induction 1 as [s slips|s t slips Hin IH]; unfold all_legs; simpl.
  - apply submseteq_inserts_r. reflexivity.
  - apply submseteq_inserts_l. exact IH.
Qed.

Lemma built_weaken (pool pool' : list Candidate) (threshold : Q) (target_size : Z)
    (s : Slip) :
  pool ⊆+ pool' -> built pool threshold target_size s ->
  built pool' threshold target_size s.
Proof.
  intros Hsub (avg & combo & -> & Hmean & Hgt & Hlen & Hin).
  exists avg, combo. repeat split; try assumption.
  now transitivity pool.
Qed.

Lemma evaluate_built (pool : list Candidate) (threshold : Q) (target_size : Z)
    (combo : list Candidate) (s : Slip) :
  Z.of_nat (length combo) = target_size -> combo ⊆+ pool ->
  evaluate threshold target_size combo = Ok (Some s) ->
  built pool threshold target_size s.
Proof.
  intros Hlen Hsub. unfold evaluate, truediv, mbind, result_bind.
  destruct (Qeq_bool (inject_Z target_size) 0); [discriminate|].
  destruct (Qle_bool _ threshold) eqn:Ethr; [discriminate|].
  destruct (negb _); [discriminate|].
  destruct (bool_decide _); [discriminate|].
  intros [= <-].
  exists (Qsum (fair_pcts combo) / inject_Z target_size)%Q, combo.
  split; [reflexivity|]. split; [unfold mean_pct; now rewrite Hlen|].
  split; [|now split].
  apply Qnot_le_lt. intros H. apply Qle_bool_iff in H. congruence.
Qed.

(** *** STRATEGY 1 *)

Lemma scan_partner_built (threshold : Q) (leg1 : Candidate)
    (search_pool : list Candidate) (indices : list nat) (i : nat) (s : Slip) :
  scan_partner threshold leg1 search_pool indices = Some (i, s) ->
  exists leg2 : Candidate,
    search_pool !! i = Some leg2 /\
    Legs s = [leg1; leg2] /\
    built [leg1; leg2] threshold 2 s.
Proof.
  induction indices as [|k indices IH]; simpl; [discriminate|].
  destruct (search_pool !! k) as [leg2|] eqn:Ek; [|discriminate].
  destruct (Qle_bool _ threshold) eqn:Ethr; [exact IH|].
  destruct (bool_decide (Team leg1 = Team leg2)); [exact IH|].
  intros [= <- <-]. exists leg2. split; [exact Ek|]. split; [reflexivity|].
  eexists _, [leg1; leg2]. split; [reflexivity|].
  split; [unfold mean_pct; simpl; field|].
  split; [|split; [reflexivity|reflexivity]].
  apply Qnot_le_lt. intros H. apply Qle_bool_iff in H. congruence.
Qed.

Lemma pair_loop_built (pool : list Candidate) (threshold : Q)
    (search_pool : list Candidate) (all_valid_slips : list Slip) :
  Forall (built pool threshold 2) all_valid_slips ->
  all_legs all_valid_slips ++ search_pool ⊆+ pool ->
  Forall (built pool threshold 2)
    (pair_loop threshold search_pool all_valid_slips) /\
  all_legs (pair_loop threshold search_pool all_valid_slips) ⊆+ pool.
Proof.
  funelim (pair_loop threshold search_pool all_valid_slips); intros Hacc Hsub.
  - split; [exact Hacc|]. now rewrite app_nil_r in Hsub.
  - split; [exact Hacc|]. etransitivity; [|exact Hsub].
    apply submseteq_inserts_r. reflexivity.
  - apply scan_partner_built in Heq as (leg2 & Hi & Hlegs & Hb).
    assert (Hperm : all_legs (all_valid_slips ++ [slip]) ++ delete i (c0 :: l)
                    ≡ₚ all_legs all_valid_slips ++ leg1 :: c0 :: l).
    { rewrite all_legs_snoc, Hlegs, <- app_assoc. simpl.
      apply Permutation_app_head. constructor.
      symmetry. now apply delete_Permutation. }
    apply H.
    + apply Forall_app. split; [exact Hacc|]. constructor; [|constructor].
      eapply built_weaken; [|exact Hb].
      etransitivity; [|exact Hsub]. apply submseteq_inserts_l.
      constructor. rewrite (delete_Permutation _ _ _ Hi).
      constructor. apply submseteq_nil_l.
    + rewrite Hperm. exact Hsub.
  - apply H; [exact Hacc|].
    etransitivity; [|exact Hsub].
    apply submseteq_skips_l. apply submseteq_cons. reflexivity.
Qed.

(** *** STRATEGY 3 *)

Lemma draw_submseteq {A : Type} (k : nat) (choices : list nat) (population : list A) :
  draw k choices population ⊆+ population.
Proof.
  revert choices population.
  induction k as [|k IH]; intros choices population; simpl.
  - apply submseteq_nil_l.
  - destruct (population !! _) as [x|] eqn:Ex; [|apply submseteq_nil_l].
    etransitivity;
      [|apply Permutation_submseteq; symmetry; apply (delete_Permutation _ _ _ Ex)].
    constructor. apply IH.
Qed.

Lemma sample_submseteq {A : Type} (choices : list nat) (population combo : list A)
    (k : Z) :
  sample choices population k = Ok combo -> combo ⊆+ population.
Proof.
  unfold sample. destruct (_ || _); [discriminate|].
  intros [= <-]. apply draw_submseteq.
Qed.

Lemma monte_carlo_built (rand : N -> list nat) (threshold : Q) (target_size : Z)
    (pool : list Candidate) :
  target_size <> 0 ->
  exists slips : list Slip,
    monte_carlo rand threshold target_size pool = Ok slips /\
    Forall (built pool threshold target_size) slips.
Proof.
  intros Hs. unfold monte_carlo.
  apply (N.iter_invariant iterations _ _
           (fun st => exists slips, found_slips st = Ok slips /\
                        Forall (built pool threshold target_size) slips)).
  - intros st (slips & Hst & Hall). unfold trial_step.
    destruct (stopped st); [now exists slips|].
    rewrite Hst.
    destruct (sample _ pool target_size) as [combo|e] eqn:Esample;
      [|now exists slips].
    rewrite evaluate_total by exact Hs. cbn [mbind result_bind found_slips].
    destruct (accepted threshold target_size combo) as [slip|] eqn:Eacc;
      [|now exists slips].
    exists (slips ++ [slip]). split; [reflexivity|].
    apply Forall_app. split; [exact Hall|]. constructor; [|constructor].
    apply (evaluate_built pool threshold target_size combo).
    + eapply sample_length, Esample.
    + eapply sample_submseteq, Esample.
    + rewrite evaluate_total by exact Hs. now rewrite Eacc.
  - exists []. split; [reflexivity|constructor].
Qed.

(** *** STRATEGY 2 *)

Lemma brute_force_built (threshold : Q) (target_size : Z) (pool : list Candidate) :
  1 <= target_size ->
  exists slips : list Slip,
    brute_force threshold target_size pool = Ok slips /\
    Forall (built pool threshold target_size) slips.
Proof.
  intros Hs. eexists. split; [now apply brute_force_spec|].
  apply Forall_forall. intros s Hin.
  apply subseteq_take, list_elem_of_omap in Hin as (combo & Hc & Hacc).
  apply subseteq_take, combinations_spec in Hc as [Hlen Hsub].
  apply (evaluate_built pool threshold target_size combo); [lia| |].
  - now apply sublist_submseteq.
  - rewrite evaluate_total by lia. now rewrite Hacc.
Qed.

(** *** The search and the ranking together *)

Section WithRuntime.
Variable float_of_str : string -> result pyfloat.
Variable rand : N -> list nat.

Lemma search_built (target_size : Z) (style : string) (pool : list Candidate) :
  1 <= target_size ->
  exists raw : list Slip,
    search rand target_size style pool = Ok raw /\
    Forall (built pool (threshold style target_size) target_size) raw /\
    (target_size = 2 -> style = "power" -> all_legs raw ⊆+ pool).
Proof.
  intros Hs. unfold search.
  assert (Hsorted : sort_desc Fair_Win_Pct pool ⊆+ pool)
    by (apply Permutation_submseteq, sort_desc_perm).
  destruct (bool_decide (target_size = 2) && bool_decide (style = "power")) eqn:Epair.
  - apply andb_true_iff in Epair as [E2%bool_decide_eq_true _]. subst target_size.
    destruct (pair_loop_built (sort_desc Fair_Win_Pct pool) (threshold style 2)
                (sort_desc Fair_Win_Pct pool) []) as [Hb Hlegs];
      [constructor|reflexivity|].
    eexists. split; [reflexivity|]. split.
    + eapply Forall_impl; [exact Hb|]. intros s. now apply built_weaken.
    + intros _ _. now transitivity (sort_desc Fair_Win_Pct pool).
  - assert (Hno : target_size = 2 -> style = "power" -> False).
    { intros -> ->. discriminate Epair. }
    destruct (5 <=? target_size) eqn:E5; cbn [negb].
    + destruct (monte_carlo_built rand (threshold style target_size) target_size
                  (sort_desc Fair_Win_Pct pool)) as (raw & -> & Hb); [lia|].
      exists raw. split; [reflexivity|]. split.
      * eapply Forall_impl; [exact Hb|]. intros s. now apply built_weaken.
      * intros H2 Hp. destruct (Hno H2 Hp).
    + destruct (brute_force_built (threshold style target_size) target_size
                  (sort_desc Fair_Win_Pct pool)) as (raw & -> & Hb); [lia|].
      exists raw. split; [reflexivity|]. split.
      * eapply Forall_impl; [exact Hb|]. intros s. now apply built_weaken.
      * intros H2 Hp. destruct (Hno H2 Hp).
Qed.

Lemma built_nil (threshold : Q) (target_size : Z) (raw : list Slip) :
  1 <= target_size -> Forall (built [] threshold target_size) raw -> raw = [].
Proof.
  intros Hs Hb. destruct raw as [|s raw]; [reflexivity|].
  apply Forall_cons in Hb as [(avg & combo & _ & _ & _ & Hlen & Hsub) _].
  apply submseteq_nil_r in Hsub. subst combo. simpl in Hlen. lia.
Qed.

(** For two legs and more, [get_slips] is the ranking of what the search
    finds in the pool. *)
Lemma get_slips_raw (files : list CsvFile) (target_size : Z) (style : string) :
  2 <= target_size ->
  exists raw : list Slip,
    search rand target_size style (pool_of float_of_str files) = Ok raw /\
    get_slips float_of_str rand files target_size style = Ok (rank raw) /\
    Forall (built (pool_of float_of_str files) (threshold style target_size)
              target_size) raw.
Proof.
  intros Hs.
  destruct (search_built target_size style (pool_of float_of_str files))
    as (raw & Hraw & Hb & _); [lia|].
  exists raw. split; [exact Hraw|]. split; [|exact Hb].
  rewrite get_slips_pool.
  destruct (pool_of float_of_str files) as [|c pool] eqn:Epool.
  - rewrite (built_nil (threshold style target_size) target_size raw ltac:(lia) Hb).
    reflexivity.
  - cbv zeta. rewrite bool_decide_eq_false_2 by lia.
    rewrite Hraw. reflexivity.
Qed.

End WithRuntime.

(** *** The ranking loop *)

Lemma select_loop_shape (slips final_slips : list Slip) (used_prop_ids : gset string) :
  exists picked : list Slip,
    select_loop slips final_slips used_prop_ids = final_slips ++ picked /\
    picked `sublist_of` slips.
Proof.
  revert final_slips used_prop_ids.
  induction slips as [|slip slips IH]; intros final used; simpl.
  - exists []. split; [now rewrite app_nil_r|constructor].
  - destruct (bool_decide (Leg_Ids slip ∩ used = ∅)).
    + destruct (1000 <=? Z.of_nat (length (final ++ [slip]))).
      * exists [slip]. split; [reflexivity|].
        constructor. apply sublist_nil_l.
      * destruct (IH (final ++ [slip]) (used ∪ Leg_Ids slip)) as (picked & -> & Hsub).
        exists (slip :: picked). split; [now rewrite <- app_assoc|].
        now constructor.
    + destruct (1000 <=? Z.of_nat (length final)).
      * exists []. split; [now rewrite app_nil_r|apply sublist_nil_l].
      * destruct (IH final used) as (picked & -> & Hsub).
        exists picked. split; [reflexivity|]. now constructor.
Qed.

Lemma select_loop_cap (slips final_slips : list Slip) (used_prop_ids : gset string) :
  (length final_slips < 1000)%nat ->
  (length (select_loop slips final_slips used_prop_ids) <= 1000)%nat.
Proof.
  revert final_slips used_prop_ids.
  induction slips as [|slip slips IH]; intros final used Hlen; simpl; [lia|].
  destruct (bool_decide (Leg_Ids slip ∩ used = ∅)).
  - destruct (1000 <=? Z.of_nat (length (final ++ [slip]))) eqn:Ecap.
    + rewrite length_app. simpl. lia.
    + apply Z.leb_gt in Ecap. apply IH. lia.
  - destruct (1000 <=? Z.of_nat (length final)) eqn:Ecap; [lia|].
    now apply IH.
Qed.

Lemma sorted_sublist {A : Type} (R : A -> A -> Prop) (l k : list A) :
  k `sublist_of` l -> StronglySorted R l -> StronglySorted R k.
Proof.
  induction 1 as [|x k l Hsub IH|x k l Hsub IH]; intros Hs.
  - constructor.
  - apply StronglySorted_inv in Hs as [Hs Hall]. constructor; [now apply IH|].
    rewrite Forall_forall in *. intros y Hy. apply Hall.
    eapply elem_of_sublist; eassumption.
  - apply StronglySorted_inv in Hs as [Hs _]. now apply IH.
Qed.

Lemma rank_sublist (raw : list Slip) :
  rank raw `sublist_of` sort_desc Avg_Win_Pct raw.
Proof.
  unfold rank.
  destruct (select_loop_shape (sort_desc Avg_Win_Pct raw) [] ∅) as (picked & -> & H).
  exact H.
Qed.

(** A slip the loop leaves out shares a leg id with a slip it kept, one
    ranked no lower, unless the loop stopped at the cap. *)
Lemma select_loop_maximal (slips final_slips : list Slip) (used_prop_ids : gset string) :
  (forall x, x ∈ used_prop_ids <-> exists t, t ∈ final_slips /\ x ∈ Leg_Ids t) ->
  (forall t s, t ∈ final_slips -> s ∈ slips -> (Avg_Win_Pct s <= Avg_Win_Pct t)%Q) ->
  StronglySorted (key_ge Avg_Win_Pct) slips ->
  (length (select_loop slips final_slips used_prop_ids) < 1000)%nat ->
  forall s, s ∈ slips ->
    s ∈ select_loop slips final_slips used_prop_ids \/
    exists t, t ∈ select_loop slips final_slips used_prop_ids /\
              (Avg_Win_Pct s <= Avg_Win_Pct t)%Q /\ overlap s t.
Proof.
  revert final_slips used_prop_ids.
  induction slips as [|slip slips IH]; intros final used Hused Hge Hsorted Hlen s Hin.
  { inversion Hin. }
  apply StronglySorted_inv in Hsorted as [Hsorted Hhead].
  rewrite Forall_forall in Hhead.
  destruct (select_loop_shape (slip :: slips) final used) as (picked & Hshape & _).
  simpl in Hlen, Hshape |- *.
  destruct (bool_decide (Leg_Ids slip ∩ used = ∅)) eqn:Efree.
  - destruct (1000 <=? Z.of_nat (length (final ++ [slip]))) eqn:Ecap;
      [apply Z.leb_le in Ecap; lia|].
    destruct (select_loop_shape slips (final ++ [slip]) (used ∪ Leg_Ids slip))
      as (rest & Hrest & _).
    apply elem_of_cons in Hin as [->|Hin].
    + left. rewrite Hrest. set_solver.
    + apply (IH (final ++ [slip]) (used ∪ Leg_Ids slip)); try assumption.
      * intros x. rewrite elem_of_union, Hused. split.
        -- intros [(t & Ht & Hx)|Hx]; [exists t|exists slip]; set_solver.
        -- intros (t & [Ht|Ht]%elem_of_app & Hx);
             [left; now exists t|right; set_solver].
      * intros t u [Ht|Ht]%elem_of_app Hu.
        -- apply Hge; [exact Ht|now right].
        -- apply list_elem_of_singleton in Ht as ->. now apply Hhead.
  - destruct (1000 <=? Z.of_nat (length final)) eqn:Ecap;
      [apply Z.leb_le in Ecap; lia|].
    destruct (select_loop_shape slips final used) as (rest & Hrest & _).
    apply elem_of_cons in Hin as [->|Hin].
    + right. apply bool_decide_eq_false in Efree.
      apply set_choose_L in Efree as [x Hx].
      apply elem_of_intersection in Hx as [Hxs Hxu].
      apply Hused in Hxu as (t & Ht & Hxt).
      exists t. split; [rewrite Hrest; set_solver|].
      split; [apply Hge; [exact Ht|left]|now exists x].
    + apply (IH final used); try assumption.
      intros t u Ht Hu. apply Hge; [exact Ht|now right].
Qed.

Lemma rank_cap (raw : list Slip) : (length (rank raw) <= 1000)%nat.
Proof. apply select_loop_cap. simpl. lia. Qed.

Lemma rank_sorted (raw : list Slip) :
  StronglySorted (key_ge Avg_Win_Pct) (rank raw).
Proof.
  eapply sorted_sublist; [apply rank_sublist|apply sort_desc_sorted].
Qed.

Lemma rank_maximal (raw : list Slip) (s : Slip) :
  (length (rank raw) < 1000)%nat -> s ∈ raw ->
  s ∈ rank raw \/
  exists t, t ∈ rank raw /\ (Avg_Win_Pct s <= Avg_Win_Pct t)%Q /\ overlap s t.
Proof.
  intros Hlen Hin. unfold rank in *.
  apply select_loop_maximal; try assumption.
  - intros x. split; [set_solver|]. intros (t & Ht & _). inversion Ht.
  - intros t u Ht. inversion Ht.
  - apply sort_desc_sorted.
  - now rewrite sort_desc_perm.
Qed.

End OriginFacts.

(** ** Further properties of the returned slips *)

Module ResultFacts.
Import FindBets Terms Origin NumberFacts SearchFacts RankFacts ViewFacts
  EngineFacts OriginFacts.

Lemma round2_nonneg (x : Q) : (0 <= x)%Q -> (0 <= round2 x)%Q.
Proof.
  intros Hx.
  assert (H0 : 0 <= Qfloor (x * 100)).
  { rewrite <- (Qfloor_Z 0). apply Qfloor_resp_le.
    change (inject_Z 0) with 0%Q. nra. }
  pose proof (round_half_even_floor (x * 100)) as Hr.
  unfold round2, Qle. simpl. lia.
Qed.

Section WithRuntime.
Variable float_of_str : string -> result pyfloat.
Variable rand : N -> list nat.

(** X1.  For a target size of 2 or more, the list [get_slips] returns is in
    descending order of [Avg_Win_Pct]. *)
Theorem ranked_descending (files : list CsvFile) (target_size : Z) (style : string) :
  2 <= target_size ->
  exists slips : list Slip,
    get_slips float_of_str rand files target_size style = Ok slips /\
    descending (map Avg_Win_Pct slips).
Proof.
  intros Hs.
  destruct (get_slips_raw float_of_str rand files target_size style Hs)
    as (raw & _ & Hget & _).
  exists (rank raw). split; [exact Hget|].
  apply sorted_descending, rank_sorted.
Qed.

(** X2.  From size 1 on, [get_slips] returns at most 1000 slips, and at
    most 51 entries at size 1. *)
Theorem result_cap (files : list CsvFile) (target_size : Z) (style : string) :
  1 <= target_size ->
  exists slips : list Slip,
    get_slips float_of_str rand files target_size style = Ok slips /\
    (length slips <= 1000)%nat /\
    (target_size = 1 -> (length slips <= 51)%nat).
Proof.
  intros Hs. destruct (decide (target_size = 1)) as [->|Hne].
  - eexists. split; [apply get_slips_single|].
    unfold top_props. rewrite length_map, length_take. lia.
  - destruct (get_slips_raw float_of_str rand files target_size style)
      as (raw & _ & Hget & _); [lia|].
    exists (rank raw). split; [exact Hget|].
    split; [apply rank_cap|]. intros H. contradiction.
Qed.

(** X3.  For a target size of 2 or more, the removal of overlaps is greedy
    and maximal: when fewer than 1000 slips are returned, every slip the
    search found is either returned or shares a leg id with a returned slip
    whose [Avg_Win_Pct] is at least as high. *)
Theorem removal_is_maximal (files : list CsvFile) (target_size : Z) (style : string) :
  2 <= target_size ->
  exists raw slips : list Slip,
    search rand target_size style (pool_of float_of_str files) = Ok raw /\
    get_slips float_of_str rand files target_size style = Ok slips /\
    ((length slips < 1000)%nat ->
     forall s : Slip, s ∈ raw ->
       s ∈ slips \/
       exists t : Slip, t ∈ slips /\
         (Avg_Win_Pct s <= Avg_Win_Pct t)%Q /\ overlap s t).
Proof.
  intros Hs.
  destruct (get_slips_raw float_of_str rand files target_size style Hs)
    as (raw & Hraw & Hget & _).
  exists raw, (rank raw). split; [exact Hraw|]. split; [exact Hget|].
  intros Hlen s Hin. now apply rank_maximal.
Qed.

(** X4.  From size 1 on, the legs of every returned slip are candidates of
    the pool, and no candidate of the pool is used more often in a slip than
    the pool holds it. *)
Theorem legs_from_pool (files : list CsvFile) (target_size : Z) (style : string) :
  1 <= target_size ->
  exists slips : list Slip,
    get_slips float_of_str rand files target_size style = Ok slips /\
    forall s : Slip, s ∈ slips -> Legs s ⊆+ pool_of float_of_str files.
Proof.
  intros Hs. destruct (decide (target_size = 1)) as [->|Hne].
  - eexists. split; [apply get_slips_single|].
    intros s Hin. unfold top_props in Hin.
    apply list_elem_of_fmap in Hin as (c & -> & Hc). simpl.
    apply singleton_submseteq_l.
    apply subseteq_take in Hc. now rewrite sort_desc_perm in Hc.
  - destruct (get_slips_raw float_of_str rand files target_size style)
      as (raw & _ & Hget & Hb); [lia|].
    exists (rank raw). split; [exact Hget|].
    intros s Hin. apply rank_spec in Hin.
    rewrite Forall_forall in Hb.
    destruct (Hb s Hin) as (avg & combo & -> & _ & _ & _ & Hsub). exact Hsub.
Qed.

(** X5.  When all candidates of the pool are on one team, a request for 2
    legs or more returns the empty list. *)
Theorem one_team_no_slips (files : list CsvFile) (target_size : Z) (style : string) :
  2 <= target_size ->
  (forall c1 c2 : Candidate,
     c1 ∈ pool_of float_of_str files -> c2 ∈ pool_of float_of_str files ->
     Team c1 = Team c2) ->
  get_slips float_of_str rand files target_size style = Ok [].
Proof.
  intros Hs Hteam.
  destruct (get_slips_sound float_of_str rand files target_size style Hs)
    as (slips & Hget & _ & Hsound & _).
  destruct (get_slips_raw float_of_str rand files target_size style Hs)
    as (raw & _ & Hget' & Hb).
  rewrite Hget. f_equal.
  destruct slips as [|s slips]; [reflexivity|]. exfalso.
  apply Forall_cons in Hsound as [[_ (leg1 & leg2 & H1 & H2 & Hne)] _].
  assert (Hin : s ∈ raw).
  { apply rank_spec. rewrite Hget in Hget'. injection Hget' as <-. left. }
  rewrite Forall_forall in Hb.
  destruct (Hb s Hin) as (avg & combo & -> & _ & _ & _ & Hsub).
  simpl in H1, H2. apply Hne, Hteam; eapply elem_of_submseteq; eassumption.
Qed.

(** X6.  When the pool has fewer candidates than the slip has legs, a
    request for 2 legs or more returns the empty list. *)
Theorem small_pool_no_slips (files : list CsvFile) (target_size : Z) (style : string) :
  2 <= target_size ->
  Z.of_nat (length (pool_of float_of_str files)) < target_size ->
  get_slips float_of_str rand files target_size style = Ok [].
Proof.
  intros Hs Hsmall.
  destruct (get_slips_raw float_of_str rand files target_size style Hs)
    as (raw & _ & Hget & Hb).
  rewrite Hget. f_equal.
  destruct (rank raw) as [|s slips] eqn:Erank; [reflexivity|]. exfalso.
  assert (Hin : s ∈ raw) by (apply rank_spec; rewrite Erank; left).
  rewrite Forall_forall in Hb.
  destruct (Hb s Hin) as (avg & combo & _ & _ & _ & Hlen & Hsub).
  apply submseteq_length in Hsub. lia.
Qed.

(** X7.  For a target size of 2 or more, the [Total_Edge] of every returned
    slip is the mean of its legs minus the threshold, rounded to hundredths,
    and it is never negative. *)
Theorem total_edge_nonneg (files : list CsvFile) (target_size : Z) (style : string) :
  2 <= target_size ->
  exists slips : list Slip,
    get_slips float_of_str rand files target_size style = Ok slips /\
    forall s : Slip, s ∈ slips ->
      Total_Edge s = round2 (mean_pct (Legs s) - threshold style target_size) /\
      (0 <= Total_Edge s)%Q.
Proof.
  intros Hs.
  destruct (get_slips_raw float_of_str rand files target_size style Hs)
    as (raw & _ & Hget & Hb).
  exists (rank raw). split; [exact Hget|].
  intros s Hin. apply rank_spec in Hin.
  rewrite Forall_forall in Hb.
  destruct (Hb s Hin) as (avg & combo & -> & Hmean & Hgt & _ & _). simpl.
  split.
  - apply round2_comp. now rewrite Hmean.
  - apply round2_nonneg. lra.
Qed.

End WithRuntime.

(** X8.  The greedy pairing uses every candidate of the pool in at most one
    slip: all legs of its slips together are taken from the pool without
    repetition, every slip has two legs, and so there are at most half as
    many slips as candidates. *)
Theorem pairing_uses_once (threshold : Q) (pool : list Candidate) :
  all_legs (greedy_pairs threshold pool) ⊆+ pool /\
  Forall (fun s => length (Legs s) = 2%nat) (greedy_pairs threshold pool) /\
  (2 * length (greedy_pairs threshold pool) <= length pool)%nat.
Proof.
  unfold greedy_pairs.
  destruct (pair_loop_built pool threshold pool []) as [Hb Hlegs];
    [constructor|reflexivity|].
  assert (Htwo : Forall (fun s => length (Legs s) = 2%nat)
                   (pair_loop threshold pool [])).
  { eapply Forall_impl; [exact Hb|].
    intros s (avg & combo & -> & _ & _ & Hlen & _). simpl. lia. }
  split; [exact Hlegs|]. split; [exact Htwo|].
  apply submseteq_length in Hlegs.
  assert (Hcount : forall slips : list Slip,
            Forall (fun s => length (Legs s) = 2%nat) slips ->
            length (all_legs slips) = (2 * length slips)%nat).
  { induction 1 as [|s slips Hs _ IH]; [reflexivity|].
    unfold all_legs in *. simpl. rewrite length_app, Hs, IH. lia. }
  rewrite (Hcount _ Htwo) in Hlegs. exact Hlegs.
Qed.

Lemma ranked_descending_witness :
  exists slips : list Slip,
    get_slips decimal_float Samples.first_left
      (Samples.one_file Samples.two_quotes) 2 "power" = Ok slips /\
    descending (map Avg_Win_Pct slips).
Proof.
  apply (ranked_descending decimal_float Samples.first_left
           (Samples.one_file Samples.two_quotes) 2 "power").
  lia.
Defined.

Lemma result_cap_witness :
  exists slips : list Slip,
    get_slips decimal_float Samples.first_left
      (Samples.one_file Samples.two_quotes) 1 "props" = Ok slips /\
    (length slips <= 1000)%nat /\
    (1 = 1 -> (length slips <= 51)%nat).
Proof.
  apply (result_cap decimal_float Samples.first_left
           (Samples.one_file Samples.two_quotes) 1 "props").
  lia.
Defined.

Lemma removal_is_maximal_witness :
  exists raw slips : list Slip,
    search Samples.first_left 2 "flex"
      (pool_of decimal_float (Samples.one_file Samples.six_quotes)) = Ok raw /\
    get_slips decimal_float Samples.first_left
      (Samples.one_file Samples.six_quotes) 2 "flex" = Ok slips /\
    ((length slips < 1000)%nat ->
     forall s : Slip, s ∈ raw ->
       s ∈ slips \/
       exists t : Slip, t ∈ slips /\
         (Avg_Win_Pct s <= Avg_Win_Pct t)%Q /\ overlap s t).
Proof.
  apply (removal_is_maximal decimal_float Samples.first_left
           (Samples.one_file Samples.six_quotes) 2 "flex").
  lia.
Defined.

Lemma legs_from_pool_witness :
  exists slips : list Slip,
    get_slips decimal_float Samples.first_left
      (Samples.one_file Samples.two_quotes) 2 "power" = Ok slips /\
    forall s : Slip, s ∈ slips ->
      Legs s ⊆+ pool_of decimal_float (Samples.one_file Samples.two_quotes).
Proof.
  apply (legs_from_pool decimal_float Samples.first_left
           (Samples.one_file Samples.two_quotes) 2 "power").
  lia.
Defined.

Lemma one_team_no_slips_witness :
  get_slips decimal_float Samples.first_left
    (Samples.one_file MoreTerms.teammates) 2 "power" = Ok [].
Proof.
  apply (one_team_no_slips decimal_float Samples.first_left
           (Samples.one_file MoreTerms.teammates) 2 "power"); [lia|].
  assert (Hteam : Forall (fun c => Team c = "X")
                    (pool_of decimal_float (Samples.one_file MoreTerms.teammates))).
  { vm_compute. repeat constructor. }
  rewrite Forall_forall in Hteam.
  intros c1 c2 H1 H2. now rewrite (Hteam c1 H1), (Hteam c2 H2).
Defined.

Lemma small_pool_no_slips_witness :
  get_slips decimal_float Samples.first_left
    (Samples.one_file Samples.two_quotes) 3 "power" = Ok [].
Proof.
  apply (small_pool_no_slips decimal_float Samples.first_left
           (Samples.one_file Samples.two_quotes) 3 "power"); [lia|].
  vm_compute. reflexivity.
Defined.

Lemma total_edge_nonneg_witness :
  exists slips : list Slip,
    get_slips decimal_float Samples.first_left
      (Samples.one_file Samples.two_quotes) 2 "power" = Ok slips /\
    forall s : Slip, s ∈ slips ->
      Total_Edge s = round2 (mean_pct (Legs s) - threshold "power" 2) /\
      (0 <= Total_Edge s)%Q.
Proof.
  apply (total_edge_nonneg decimal_float Samples.first_left
           (Samples.one_file Samples.two_quotes) 2 "power").
  lia.
Defined.

End ResultFacts.

(** ** The scrapers *)

Module ScraperFacts.
Import Novig Scraper MoreTerms NumberFacts.

(** Rounding moves a number by no more than a half. *)
Lemma round_half_even_near (y : Q) :
  (y - (1 # 2) <= inject_Z (round_half_even y) <= y + (1 # 2))%Q.
Proof.
  pose proof (Qfloor_le y) as Hlo. pose proof (Qlt_floor y) as Hhi.
  rewrite inject_Z_plus in Hhi. change (inject_Z 1) with 1%Q in Hhi.
  unfold round_half_even.
  destruct (y - inject_Z (Qfloor y) ?= 1 # 2)%Q eqn:Ec.
  - apply Qeq_alt in Ec.
    destruct (Z.even (Qfloor y)); rewrite ?inject_Z_plus;
      change (inject_Z 1) with 1%Q; lra.
  - apply Qlt_alt in Ec. lra.
  - apply Qgt_alt in Ec. rewrite inject_Z_plus.
    change (inject_Z 1) with 1%Q. lra.
Qed.

Lemma round2_near (x : Q) : (x - (1 # 200) <= round2 x <= x + (1 # 200))%Q.
Proof.
  pose proof (round_half_even_near (x * 100)) as [Hlo Hhi].
  assert (E : (round2 x == inject_Z (round_half_even (x * 100)) / 100)%Q).
  { unfold round2. rewrite (Qmake_Qdiv _ 100). reflexivity. }
  rewrite E. split.
  - apply Qle_shift_div_l; [reflexivity|]. lra.
  - apply Qle_shift_div_r; [reflexivity|]. lra.
Qed.

(** Rounding does not take a number above a hundredth it does not exceed. *)
Lemma round2_le (t x : Q) :
  Qden t = 100%positive -> (x <= t)%Q -> (round2 x <= t)%Q.
Proof.
  intros Hd Hle. destruct t as [n d]. simpl in Hd. subst d.
  assert (Hy : (x * 100 <= inject_Z n)%Q).
  { assert (E : (inject_Z n == (n # 100) * 100)%Q).
    { unfold Qeq, inject_Z. simpl. lia. }
    rewrite E. lra. }
  pose proof (Qfloor_resp_le _ _ Hy) as Hf. rewrite Qfloor_Z in Hf.
  assert (Hr : round_half_even (x * 100) <= n).
  { unfold round_half_even.
    destruct (decide (Qfloor (x * 100) = n)) as [Efl|Hne].
    - assert (Ex : (x * 100 - inject_Z (Qfloor (x * 100)) ?= 1 # 2)%Q = Lt).
      { apply (proj1 (Qlt_alt _ _)). pose proof (Qfloor_le (x * 100)) as Hlo.
        rewrite Efl in *. lra. }
      rewrite Ex. lia.
    - destruct (_ ?= _)%Q; [destruct (Z.even _)|..]; lia. }
  unfold round2, Qle. simpl. lia.
Qed.

(** The two outcomes of [calculate_novig]. *)
Lemma calculate_novig_cases (over_odds under_odds : Z) :
  calculate_novig over_odds under_odds = Ok (0%Q, 0%Q) \/
  exists fair_over fair_under : Q,
    calculate_novig over_odds under_odds = Ok (fair_over, fair_under) /\
    (fair_over + fair_under == 1)%Q /\ (0 <= fair_over)%Q /\ (0 <= fair_under)%Q.
Proof.
  pose proof (NovigFacts.implied_spec_nonneg over_odds) as Ho.
  pose proof (NovigFacts.implied_spec_nonneg under_odds) as Hu.
  destruct (Qeq_dec (implied_spec over_odds + implied_spec under_odds) 0) as [Hz|Hnz].
  - left. unfold calculate_novig, novig_body.
    rewrite !NovigFacts.get_implied_spec. cbn [mbind result_bind].
    rewrite !truediv_zero by exact Hz. reflexivity.
  - right. unfold calculate_novig.
    rewrite NovigFacts.novig_body_regular by exact Hnz.
    eexists _, _. split; [reflexivity|].
    set (po := implied_spec over_odds) in *.
    set (pu := implied_spec under_odds) in *.
    assert (Hpos : (0 < po + pu)%Q) by lra.
    split; [field; exact Hnz|].
    split; (apply Qle_shift_div_l; [exact Hpos|lra]).
Qed.

Lemma fair_pair_zero (a b : Q) : (a == 0)%Q -> (b == 0)%Q -> fair_pair a b.
Proof. intros Ha Hb. unfold fair_pair. repeat split; lra. Qed.

Lemma fair_pair_rounded (fair_over fair_under : Q) :
  (fair_over + fair_under == 1)%Q -> (0 <= fair_over)%Q -> (0 <= fair_under)%Q ->
  fair_pair (round2 (fair_over * 100)) (round2 (fair_under * 100)).
Proof.
  intros Hsum Ho Hu.
  pose proof (round2_near (fair_over * 100)) as [Holo Hohi].
  pose proof (round2_near (fair_under * 100)) as [Hulo Huhi].
  assert (Ho0 : (0 <= round2 (fair_over * 100))%Q).
  { apply ResultFacts.round2_nonneg. lra. }
  assert (Hu0 : (0 <= round2 (fair_under * 100))%Q).
  { apply ResultFacts.round2_nonneg. lra. }
  assert (Ho1 : (round2 (fair_over * 100) <= 100.00)%Q).
  { apply round2_le; [reflexivity|]. lra. }
  assert (Hu1 : (round2 (fair_under * 100) <= 100.00)%Q).
  { apply round2_le; [reflexivity|]. lra. }
  unfold fair_pair. repeat split; try assumption; lra.
Qed.

Section WithPage.
Variable strip : string -> string.
Variable lower : string -> string.
Variable int_of_str : string -> result Z.

Lemma fill_fair_pair (row_data : RowData) :
  fair_pair (rd_FD_Fair_Over row_data) (rd_FD_Fair_Under row_data) ->
  fair_pair (rd_FD_Fair_Over (fill_fair int_of_str row_data))
            (rd_FD_Fair_Under (fill_fair int_of_str row_data)).
Proof.
  intros Hrow. unfold fill_fair.
  destruct (_ && _); [|exact Hrow].
  destruct (int_of_str (rd_FD_Over_Odds row_data)) as [o|]; [|exact Hrow].
  destruct (int_of_str (rd_FD_Under_Odds row_data)) as [u|]; [|exact Hrow].
  cbn [mbind result_bind].
  destruct (calculate_novig_cases o u) as [->|(fo & fu & -> & Hsum & Ho & Hu)]; simpl.
  - apply fair_pair_zero; reflexivity.
  - now apply fair_pair_rounded.
Qed.

Lemma read_buttons_fair (buttons : list (option (string * string)))
    (row_data : RowData) :
  rd_FD_Fair_Over (read_buttons strip buttons row_data) = rd_FD_Fair_Over row_data /\
  rd_FD_Fair_Under (read_buttons strip buttons row_data) = rd_FD_Fair_Under row_data.
Proof.
  revert row_data. induction buttons as [|[[line cost]|] buttons IH];
    intros row_data; simpl; [auto| |auto].
  destruct (IH (read_button strip row_data line cost)) as [-> ->].
  unfold read_button.
  destruct (String.prefix "O" _); [auto|].
  destruct (String.prefix "U" _); auto.
Qed.

Lemma read_lines_fair (lines : list string) (row_data : RowData) :
  rd_FD_Fair_Over (read_lines strip lines row_data) = rd_FD_Fair_Over row_data /\
  rd_FD_Fair_Under (read_lines strip lines row_data) = rd_FD_Fair_Under row_data.
Proof.
  induction lines as [|l lines IH]; simpl; [auto|].
  destruct (bool_decide _); auto.
Qed.

(** X9.  The percentages of a scraped row: each lies between 0 and 100;
    either both are 0 or they add up to 100 within a hundredth; and they
    never both exceed 53.5, the floor [find_bets] asks of a side. *)
Theorem scraped_percentages (fd_index pp_index : Z) (cells : list Cell)
    (name img_url team sport prop_name : string) (row_data : RowData) :
  scrape_row strip int_of_str fd_index pp_index cells
    (new_row name img_url team sport prop_name) = Some row_data ->
  (0 <= rd_FD_Fair_Over row_data <= 100)%Q /\
  (0 <= rd_FD_Fair_Under row_data <= 100)%Q /\
  ((rd_FD_Fair_Over row_data == 0 /\ rd_FD_Fair_Under row_data == 0) \/
   (99.99 <= rd_FD_Fair_Over row_data + rd_FD_Fair_Under row_data <= 100.01))%Q /\
  ~ ((53.5 < rd_FD_Fair_Over row_data)%Q /\ (53.5 < rd_FD_Fair_Under row_data)%Q).
Proof.
  assert (Hkeep : forall r0 : RowData,
            fair_pair (rd_FD_Fair_Over r0) (rd_FD_Fair_Under r0) ->
            forall (idx : Z) (read : Cell -> RowData -> RowData),
              (forall c r, rd_FD_Fair_Over (read c r) = rd_FD_Fair_Over r /\
                           rd_FD_Fair_Under (read c r) = rd_FD_Fair_Under r) ->
              forall r1,
                (if negb (bool_decide (idx = -1)) && (idx <? Z.of_nat (length cells))
                 then cell ← py_index cells idx; Some (read cell r0)
                 else Some r0) = Some r1 ->
                fair_pair (rd_FD_Fair_Over r1) (rd_FD_Fair_Under r1)).
  { intros r0 Hr0 idx read Hread r1.
    destruct (negb (bool_decide (idx = -1)) && _).
    - destruct (py_index cells idx) as [cell|]; cbn; [|discriminate].
      intros [= <-]. destruct (Hread cell r0) as [-> ->]. exact Hr0.
    - now intros [= <-]. }
  unfold scrape_row. intros H.
  destruct (if negb (bool_decide (fd_index = -1)) && _ then _ else _)
    as [r1|] eqn:E1; cbn [mbind option_bind] in H; [|discriminate].
  destruct (if negb (bool_decide (pp_index = -1)) && _ then _ else _)
    as [r2|] eqn:E2; cbn [mbind option_bind] in H; [|discriminate].
  injection H as <-.
  apply fill_fair_pair.
  apply (Hkeep r1) with (idx := pp_index)
    (read := fun c r => read_lines strip (cell_lines c) r);
    [|intros c r; apply read_lines_fair|exact E2].
  apply (Hkeep (new_row name img_url team sport prop_name)) with (idx := fd_index)
    (read := fun c r => read_buttons strip (cell_buttons c) r);
    [|intros c r; apply read_buttons_fair|exact E1].
  apply fair_pair_zero; reflexivity.
Qed.

End WithPage.

(** *** The header loop *)

Section WithHeaders.
Variable strip : string -> string.
Variable lower : string -> string.

Lemma scan_headers_spec (rest seen : list Header) (fd_index pp_index : Z) :
  columns_ok strip lower seen fd_index pp_index ->
  columns_ok strip lower (seen ++ rest)
    (scan_headers strip lower rest (Z.of_nat (length seen)) fd_index pp_index).1
    (scan_headers strip lower rest (Z.of_nat (length seen)) fd_index pp_index).2.
Proof.
  revert seen fd_index pp_index.
  induction rest as [|h rest IH]; intros seen fd pp Hok; simpl.
  { now rewrite app_nil_r. }
  assert (Hlen : Z.of_nat (length seen) + 1 = Z.of_nat (length (seen ++ [h])))
    by (rewrite length_app; simpl; lia).
  assert (Hhere : (seen ++ [h]) !! Z.to_nat (Z.of_nat (length seen)) = Some h).
  { rewrite Nat2Z.id. rewrite lookup_app_r by lia.
    now rewrite Nat.sub_diag. }
  assert (Hpp : forall p, (p = -1 \/
                  (exists h0, 0 <= p /\ seen !! Z.to_nat p = Some h0 /\
                     is_PrizePicks strip lower h0 = true /\
                     is_FanDuel strip lower h0 = false)) ->
                (p = -1 \/
                  (exists h0, 0 <= p /\ (seen ++ [h]) !! Z.to_nat p = Some h0 /\
                     is_PrizePicks strip lower h0 = true /\
                     is_FanDuel strip lower h0 = false))).
  { intros p [Hp|(h0 & H0 & Hl & H1 & H2)]; [now left|right].
    exists h0. repeat split; try assumption.
    now apply lookup_app_l_Some. }
  assert (Hfd : is_FanDuel strip lower h = false ->
                ((fd = -1 /\ Forall (fun h => is_FanDuel strip lower h = false) seen) \/
                 (exists h0, 0 <= fd /\ seen !! Z.to_nat fd = Some h0 /\
                    is_FanDuel strip lower h0 = true /\
                    forall j h', (Z.to_nat fd < j)%nat -> seen !! j = Some h' ->
                                 is_FanDuel strip lower h' = false)) ->
                ((fd = -1 /\
                  Forall (fun h => is_FanDuel strip lower h = false) (seen ++ [h])) \/
                 (exists h0, 0 <= fd /\ (seen ++ [h]) !! Z.to_nat fd = Some h0 /\
                    is_FanDuel strip lower h0 = true /\
                    forall j h', (Z.to_nat fd < j)%nat ->
                                 (seen ++ [h]) !! j = Some h' ->
                                 is_FanDuel strip lower h' = false))).
  { intros Hh [[Hm Hall]|(h0 & H0 & Hl & H1 & Hlater)]; [left|right].
    - split; [exact Hm|]. apply Forall_app. split; [exact Hall|].
      now constructor.
    - exists h0. repeat split; try assumption; [now apply lookup_app_l_Some|].
      intros j h' Hj Hl'. apply lookup_snoc_Some in Hl' as [[_ Hl']|[_ <-]].
      + eapply Hlater; eassumption.
      + exact Hh. }
  destruct Hok as [Hf Hp].
  rewrite (cons_middle h seen rest), app_assoc.
  destruct (is_FanDuel strip lower h) eqn:Ef;
    [|destruct (is_PrizePicks strip lower h) eqn:Ep]; rewrite Hlen; apply IH.
  - split; [right|now apply Hpp].
    exists h. split; [lia|]. split; [exact Hhere|]. split; [exact Ef|].
    intros j h' Hj Hl'. rewrite Nat2Z.id in Hj.
    apply lookup_lt_Some in Hl'. rewrite length_app in Hl'. simpl in Hl'. lia.
  - split; [now apply Hfd|right].
    exists h. split; [lia|]. now split.
  - split; [now apply Hfd|now apply Hpp].
Qed.

(** X10.  The column indices [find_columns] returns: the FanDuel index is
    -1 exactly when no header is FanDuel's, else the position of the last
    such header; a PrizePicks index other than -1 is the position of a
    header that is PrizePicks' and not FanDuel's; so the two columns found
    are never the same. *)
Theorem columns_found (header_items : list Header) (fd_index pp_index : Z) :
  find_columns strip lower header_items = (fd_index, pp_index) ->
  ((fd_index = -1 /\
    Forall (fun h => is_FanDuel strip lower h = false) header_items) \/
   (exists h, 0 <= fd_index /\ header_items !! Z.to_nat fd_index = Some h /\
              is_FanDuel strip lower h = true /\
              forall j h', (Z.to_nat fd_index < j)%nat ->
                           header_items !! j = Some h' ->
                           is_FanDuel strip lower h' = false)) /\
  (pp_index = -1 \/
   (exists h, 0 <= pp_index /\ header_items !! Z.to_nat pp_index = Some h /\
              is_PrizePicks strip lower h = true /\
              is_FanDuel strip lower h = false)) /\
  (fd_index <> -1 -> fd_index <> pp_index).
Proof.
  intros Hfind.
  pose proof (scan_headers_spec header_items [] (-1) (-1)) as Hspec.
  change (Z.of_nat (length (@nil Header))) with 0 in Hspec.
  change ([] ++ header_items) with header_items in Hspec.
  unfold find_columns in Hfind. rewrite Hfind in Hspec.
  destruct Hspec as [Hf Hp].
  { split; [left; split; [reflexivity|constructor]|now left]. }
  split; [exact Hf|]. split; [exact Hp|].
  intros Hne ->.
  destruct Hf as [[Hf _]|(h & _ & Hl & Hfd & _)]; [contradiction|].
  destruct Hp as [Hp|(h' & _ & Hl' & _ & Hnfd)]; [contradiction|].
  simpl in Hl, Hl'. rewrite Hl in Hl'. injection Hl' as <-.
  rewrite Hfd in Hnfd. discriminate.
Qed.

End WithHeaders.

(** *** The scroll loop *)

Lemma scroll_stable (k : nat) (h : Z) (unread : list Z) :
  (k <= 5)%nat ->
  scroll_loop (replicate (2 * k + 1) h ++ unread)
    {| last_height := h; retries := 5 - Z.of_nat k |} =
  Finished {| last_height := h; retries := 6 |} unread.
Proof.
  induction k as [|k IH]; intros Hk.
  - simpl. rewrite bool_decide_eq_true_2 by reflexivity. reflexivity.
  - replace (2 * S k + 1)%nat with (S (S (2 * k + 1))) by lia.
    cbn [replicate app scroll_loop last_height retries].
    rewrite bool_decide_eq_true_2 by reflexivity.
    assert (E : (5 - Z.of_nat (S k) + 1 <=? max_retries) = true)
      by (apply Z.leb_le; unfold max_retries; lia).
    rewrite E, Z.ltb_irrefl.
    replace (5 - Z.of_nat (S k) + 1) with (5 - Z.of_nat k) by lia.
    apply IH. lia.
Qed.

(** X11.  On a page whose height no longer changes the scroll loop ends:
    started with the height [h], it reads [h] eleven times, six scrolls and
    five shakes, and stops with 6 retries, leaving the rest unread. *)
Theorem stable_page_ends (h : Z) (unread : list Z) :
  scroll_loop (replicate 11 h ++ unread) {| last_height := h; retries := 0 |} =
  Finished {| last_height := h; retries := 6 |} unread.
Proof. apply (scroll_stable 5). lia. Qed.

Lemma scroll_finished (n : nat) (heights : list Z) (s s' : Scroll) (unread : list Z) :
  (length heights <= n)%nat ->
  0 <= retries s <= 5 ->
  scroll_loop heights s = Finished s' unread ->
  retries s' = 6 /\
  exists seen : list Z,
    heights = seen ++ unread /\ 11 - 2 * retries s <= Z.of_nat (length seen).
Proof.
  revert heights s.
  induction n as [|n IH]; intros heights s Hn Hr Hrun.
  { destruct heights; [discriminate|simpl in Hn; lia]. }
  destruct heights as [|a heights1]; [discriminate|].
  simpl in Hn. cbn [scroll_loop] in Hrun.
  destruct (bool_decide (a = last_height s)).
  - destruct (retries s + 1 <=? max_retries) eqn:Emax.
    + apply Z.leb_le in Emax. unfold max_retries in Emax.
      destruct heights1 as [|b heights2]; [discriminate|]. simpl in Hn.
      destruct (last_height s <? b).
      * apply IH in Hrun as (Hs' & seen & -> & Hlen); [|lia|simpl; lia].
        split; [exact Hs'|]. exists (a :: b :: seen). split; [reflexivity|].
        simpl in *. lia.
      * apply IH in Hrun as (Hs' & seen & -> & Hlen); [|lia|simpl; lia].
        split; [exact Hs'|]. exists (a :: b :: seen). split; [reflexivity|].
        simpl in *. lia.
    + apply Z.leb_gt in Emax. unfold max_retries in Emax.
      injection Hrun as <- <-. split; [simpl; lia|].
      exists [a]. split; [reflexivity|]. simpl. lia.
  - apply IH in Hrun as (Hs' & seen & -> & Hlen); [|lia|simpl; lia].
    split; [exact Hs'|]. exists (a :: seen). split; [reflexivity|].
    simpl in *. lia.
Qed.

(** X12.  The scroll loop gives up late: started with 0 retries, it stops
    only with 6 retries and after at least 11 readings of the height. *)
Theorem gives_up_late (heights : list Z) (s s' : Scroll) (unread : list Z) :
  retries s = 0 ->
  scroll_loop heights s = Finished s' unread ->
  retries s' = 6 /\
  exists seen : list Z,
    heights = seen ++ unread /\ (11 <= length seen)%nat.
Proof.
  intros Hr Hrun.
  destruct (scroll_finished (length heights) heights s s' unread)
    as (Hs' & seen & Hsplit & Hlen); [lia|lia|exact Hrun|].
  split; [exact Hs'|]. exists seen. split; [exact Hsplit|]. lia.
Qed.

(** X13.  On a page that keeps growing the scroll loop never stops: when
    every height read is above the one before, the loop uses up all
    readings, with the last one as its height. *)
Theorem growing_page_goes_on (heights : list Z) (s : Scroll) :
  StronglySorted Z.lt (last_height s :: heights) ->
  exists s' : Scroll,
    scroll_loop heights s = Starved s' /\
    last_height s' = default (last_height s) (last heights).
Proof.
  revert s. induction heights as [|a heights IH]; intros s Hsorted.
  - exists s. split; reflexivity.
  - apply StronglySorted_inv in Hsorted as [Hrest Hfirst].
    apply Forall_cons in Hfirst as [Ha _].
    cbn [scroll_loop]. rewrite bool_decide_eq_false_2 by lia.
    destruct (IH {| last_height := a; retries := 0 |} Hrest) as (s' & -> & Hs').
    exists s'. split; [reflexivity|]. rewrite Hs'. simpl last_height.
    destruct heights as [|b heights]; [reflexivity|].
    rewrite last_cons_cons.
    destruct (last (b :: heights)) eqn:Elast; [reflexivity|].
    apply last_None in Elast. discriminate.
Qed.

Lemma scraped_percentages_witness :
  exists row_data : RowData,
    scrape_row as_is decimal_int 0 1 two_cells
      (new_row "A" "a.png" "X - PG" "NBA" "Points") = Some row_data /\
    ~ ((53.5 < rd_FD_Fair_Over row_data)%Q /\ (53.5 < rd_FD_Fair_Under row_data)%Q).
Proof.
  eexists. split; [vm_compute; reflexivity|].
  apply (scraped_percentages as_is decimal_int 0 1 two_cells
           "A" "a.png" "X - PG" "NBA" "Points").
  vm_compute. reflexivity.
Defined.

Lemma columns_found_witness :
  columns_ok as_is as_is two_headers 1 2 /\ (1 <> -1 -> 1 <> 2).
Proof.
  destruct (columns_found as_is as_is two_headers 1 2) as (Hfd & Hpp & Hne).
  - vm_compute. reflexivity.
  - split; [split; [exact Hfd|exact Hpp]|exact Hne].
Defined.

Lemma gives_up_late_witness :
  retries {| last_height := 100; retries := 6 |} = 6 /\
  exists seen : list Z,
    replicate 11 100 ++ [200] = seen ++ [200] /\ (11 <= length seen)%nat.
Proof.
  apply (gives_up_late (replicate 11 100 ++ [200])
           {| last_height := 100; retries := 0 |}
           {| last_height := 100; retries := 6 |} [200]).
  - reflexivity.
  - vm_compute. reflexivity.
Defined.

Lemma growing_page_goes_on_witness :
  exists s' : Scroll,
    scroll_loop [100; 200; 300] {| last_height := 50; retries := 0 |} = Starved s' /\
    last_height s' = default 50 (last [100; 200; 300]).
Proof.
  apply (growing_page_goes_on [100; 200; 300]
           {| last_height := 50; retries := 0 |}).
  repeat constructor; lia.
Defined.

End ScraperFacts.

(** ** Loading, extraction and the exhaustive search once more *)

Module PipelineFacts.
Import FindBets Terms Origin MoreTerms NumberFacts SearchFacts RankFacts
  ViewFacts EngineFacts ExtractorFacts.

Lemma combinations_complete {A : Type} (pool combo : list A) :
  combo `sublist_of` pool -> combo ∈ combinations (length combo) pool.
Proof.
  induction 1 as [|x combo pool Hsub IH|x combo pool Hsub IH].
  - simpl. left.
  - simpl. apply elem_of_app. left. now apply list_elem_of_fmap_2.
  - destruct combo as [|y combo]; [simpl; left|].
    change (length (y :: combo)) with (S (length combo)) in *.
    cbn [combinations]. apply elem_of_app. right. exact IH.
Qed.

(** X14.  Below its two bounds STRATEGY 2 is exhaustive: when there are at
    most 3,000,000 combinations and at most 2,000 of them pass the tests,
    it returns the slip of every combination of [target_size] candidates,
    taken in pool order, that passes them, and these in the order of the
    combinations. *)
Theorem brute_force_exhaustive (threshold : Q) (target_size : Z)
    (pool : list Candidate) :
  1 <= target_size ->
  Z.of_nat (length (combinations (Z.to_nat target_size) pool)) <= 3000000 ->
  (length (omap (accepted threshold target_size)
             (combinations (Z.to_nat target_size) pool)) <= 2000)%nat ->
  brute_force threshold target_size pool =
    Ok (omap (accepted threshold target_size)
          (combinations (Z.to_nat target_size) pool)) /\
  forall (combo : list Candidate) (s : Slip),
    combo `sublist_of` pool -> Z.of_nat (length combo) = target_size ->
    accepted threshold target_size combo = Some s ->
    s ∈ omap (accepted threshold target_size)
          (combinations (Z.to_nat target_size) pool).
Proof.
  intros Hs Hcombos Hslips. split.
  - rewrite brute_force_spec by exact Hs.
    rewrite (take_ge (combinations _ _)) by (unfold examined; lia).
    now rewrite take_ge.
  - intros combo s Hsub Hlen Hacc.
    apply list_elem_of_omap. exists combo. split; [|exact Hacc].
    replace (Z.to_nat target_size) with (length combo) by lia.
    now apply combinations_complete.
Qed.

Section WithFloat.
Variable float_of_str : string -> result pyfloat.

Lemma unreadable_none (row : Row) :
  unreadable float_of_str row -> candidate_of float_of_str row = None.
Proof.
  unfold unreadable, candidate_of, row_body, mbind, result_bind.
  intros H.
  destruct (bool_decide (row_FanDuel_Line row ∈ ["NL"; "FF"])) eqn:Efd;
    [reflexivity|].
  destruct (bool_decide (row_PrizePicks_Line row ∈ ["NL"; "FF"; "nan"])) eqn:Epp;
    [reflexivity|].
  apply bool_decide_eq_false in Efd, Epp. simpl.
  destruct H as [H|[H|[[e H]|[[e H]|[[e H]|[e H]]]]]]; try contradiction.
  - now rewrite H.
  - rewrite H. now destruct (float_of_str (row_FanDuel_Line row)).
  - rewrite H. destruct (float_of_str (row_FanDuel_Line row)); [|reflexivity].
    now destruct (float_of_str (row_PrizePicks_Line row)).
  - rewrite H. destruct (float_of_str (row_FanDuel_Line row)); [|reflexivity].
    destruct (float_of_str (row_PrizePicks_Line row)); [|reflexivity].
    now destruct (float_of_str (row_FD_Fair_Over row)).
Qed.

(** X15.  A row with a marker of a missing line, or with a cell that
    [float()] rejects, is passed over and leaves the candidates of the rows
    before and after it as they are: the pool is that of the rows before
    followed by that of the rows after. *)
Theorem unreadable_rows_skipped (before after : list Row) (row : Row) :
  unreadable float_of_str row ->
  extract float_of_str (before ++ row :: after) =
    extract float_of_str before ++ extract float_of_str after.
Proof.
  intros Hrow. rewrite !extract_omap, omap_app. csimpl.
  now rewrite (unreadable_none row Hrow).
Qed.

End WithFloat.




Section WithRuntime.
Variable float_of_str : string -> result pyfloat.
Variable int_of_str : string -> result Z.
Variable rand : N -> list nat.


End WithRuntime.

Lemma brute_force_exhaustive_witness :
  brute_force 54.21 2 (pool_of decimal_float (Samples.one_file Samples.two_quotes)) =
    Ok (omap (accepted 54.21 2)
          (combinations (Z.to_nat 2)
             (pool_of decimal_float (Samples.one_file Samples.two_quotes)))).
Proof.
  apply (brute_force_exhaustive 54.21 2
           (pool_of decimal_float (Samples.one_file Samples.two_quotes))).
  - lia.
  - vm_compute. discriminate.
  - apply Nat.leb_le. vm_compute. reflexivity.
Defined.

Lemma unreadable_rows_skipped_witness :
  extract decimal_float (Samples.two_quotes ++ no_line :: Samples.six_quotes) =
    extract decimal_float Samples.two_quotes ++ extract decimal_float Samples.six_quotes.
Proof.
  apply (unreadable_rows_skipped decimal_float Samples.two_quotes
           Samples.six_quotes no_line).
  left. simpl. left.
Defined.


End PipelineFacts.

(** ** From the page to the pool *)

Module BridgeFacts.
Import FindBets Terms MoreTerms Scraper EngineFacts PipelineFacts.

Section WithPage.
Variable strip : string -> string.
Variable int_of_str : string -> result Z.

Lemma odds_of_not_even (cost_text : string) : odds_of cost_text <> "EVEN".
Proof.
  unfold odds_of. destruct (bool_decide (cost_text = "EVEN")) eqn:E.
  - discriminate.
  - now apply bool_decide_eq_false in E.
Qed.

Lemma read_buttons_odds (buttons : list (option (string * string)))
    (row_data : RowData) :
  rd_FD_Over_Odds row_data <> "EVEN" -> rd_FD_Under_Odds row_data <> "EVEN" ->
  rd_FD_Over_Odds (read_buttons strip buttons row_data) <> "EVEN" /\
  rd_FD_Under_Odds (read_buttons strip buttons row_data) <> "EVEN".
Proof.
  revert row_data.
  induction buttons as [|[[line cost]|] buttons IH]; intros row_data Ho Hu;
    simpl; [auto| |auto].
  apply IH; unfold read_button;
    destruct (String.prefix "O" _); simpl; auto using odds_of_not_even;
    destruct (String.prefix "U" _); simpl; auto using odds_of_not_even.
Qed.

Lemma read_lines_keeps (lines : list string) (row_data : RowData) :
  rd_FD_Over_Odds (read_lines strip lines row_data) = rd_FD_Over_Odds row_data /\
  rd_FD_Under_Odds (read_lines strip lines row_data) = rd_FD_Under_Odds row_data /\
  rd_FanDuel_Line (read_lines strip lines row_data) = rd_FanDuel_Line row_data.
Proof.
  induction lines as [|l lines IH]; simpl; [auto|].
  destruct (bool_decide _); auto.
Qed.

Lemma fill_fair_keeps (row_data : RowData) :
  rd_FD_Over_Odds (fill_fair int_of_str row_data) = rd_FD_Over_Odds row_data /\
  rd_FD_Under_Odds (fill_fair int_of_str row_data) = rd_FD_Under_Odds row_data /\
  rd_FanDuel_Line (fill_fair int_of_str row_data) = rd_FanDuel_Line row_data.
Proof.
  unfold fill_fair. destruct (_ && _); [|auto].
  destruct (_ ≫= _) as [[fo fu]|]; auto.
Qed.

(** The three steps of [scrape_row] one by one. *)
Lemma scrape_row_steps (fd_index pp_index : Z) (cells : list Cell)
    (row0 row_data : RowData) :
  scrape_row strip int_of_str fd_index pp_index cells row0 = Some row_data ->
  exists row1 row2 : RowData,
    (row1 = row0 \/
     exists cell, fd_index <> -1 /\ row1 = read_buttons strip (cell_buttons cell) row0) /\
    (row2 = row1 \/
     exists cell, row2 = read_lines strip (cell_lines cell) row1) /\
    row_data = fill_fair int_of_str row2.
Proof.
  unfold scrape_row. intros H.
  destruct (negb (bool_decide (fd_index = -1)) && _) eqn:Efd.
  - destruct (py_index cells fd_index) as [c1|]; cbn in H; [|discriminate].
    apply andb_true_iff in Efd as [Efd _].
    apply negb_true_iff, bool_decide_eq_false in Efd.
    destruct (negb (bool_decide (pp_index = -1)) && _).
    + destruct (py_index cells pp_index) as [c2|]; cbn in H; [|discriminate].
      injection H as <-. eexists _, _. split; [right; now exists c1|].
      split; [right; now exists c2|reflexivity].
    + cbn in H. injection H as <-. eexists _, _.
      split; [right; now exists c1|]. split; [now left|reflexivity].
  - cbn in H. destruct (negb (bool_decide (pp_index = -1)) && _).
    + destruct (py_index cells pp_index) as [c2|]; cbn in H; [|discriminate].
      injection H as <-. eexists _, _. split; [now left|].
      split; [right; now exists c2|reflexivity].
    + cbn in H. injection H as <-. eexists _, _.
      split; [now left|]. split; [now left|reflexivity].
Qed.

(** X17.  The odds stored in a scraped row are never the text EVEN: even
    money is stored as +100. *)
Theorem odds_never_even (fd_index pp_index : Z) (cells : list Cell)
    (name img_url team sport prop_name : string) (row_data : RowData) :
  scrape_row strip int_of_str fd_index pp_index cells
    (new_row name img_url team sport prop_name) = Some row_data ->
  rd_FD_Over_Odds row_data <> "EVEN" /\ rd_FD_Under_Odds row_data <> "EVEN".
Proof.
  intros H.
  apply scrape_row_steps in H as (row1 & row2 & H1 & H2 & ->).
  destruct (fill_fair_keeps row2) as (-> & -> & _).
  assert (Hrow1 : rd_FD_Over_Odds row1 <> "EVEN" /\ rd_FD_Under_Odds row1 <> "EVEN").
  { destruct H1 as [->|(cell & _ & ->)]; [split; discriminate|].
    apply read_buttons_odds; discriminate. }
  destruct H2 as [->|(cell & ->)]; [exact Hrow1|].
  destruct (read_lines_keeps (cell_lines cell) row1) as (-> & -> & _).
  exact Hrow1.
Qed.

(** X18.  Under buttons never replace a FanDuel line that is stored: when
    the row holds a line other than NL and no button left is an over
    button, the loop over the buttons leaves the line as it is. *)
Theorem under_keeps_line (buttons : list (option (string * string)))
    (row_data : RowData) :
  rd_FanDuel_Line row_data <> "NL" ->
  Forall (fun button =>
            match button with
            | Some (line, _) => String.prefix "O" (strip line) = false
            | None => True
            end) buttons ->
  rd_FanDuel_Line (read_buttons strip buttons row_data) = rd_FanDuel_Line row_data.
Proof.
  intros Hline Hall. revert row_data Hline.
  induction Hall as [|[[line cost]|] buttons Hb Hall IH]; intros row_data Hline;
    simpl; [reflexivity| |reflexivity].
  assert (Hstep : rd_FanDuel_Line (read_button strip row_data line cost)
                  = rd_FanDuel_Line row_data).
  { unfold read_button. rewrite Hb.
    destruct (String.prefix "U" _); [|reflexivity]. simpl.
    now rewrite bool_decide_eq_false_2. }
  rewrite IH; [exact Hstep|]. now rewrite Hstep.
Qed.

Variable float_of_str : string -> result pyfloat.

(** X19.  A player scraped while no FanDuel column was found keeps the
    marker NL as FanDuel line, and a row of the table with that line never
    becomes a candidate. *)
Theorem no_column_no_candidate (pp_index : Z) (cells : list Cell)
    (name img_url team sport prop_name : string) (row_data : RowData) (row : Row) :
  scrape_row strip int_of_str (-1) pp_index cells
    (new_row name img_url team sport prop_name) = Some row_data ->
  row_FanDuel_Line row = rd_FanDuel_Line row_data ->
  rd_FanDuel_Line row_data = "NL" /\
  candidate_of float_of_str row = None.
Proof.
  intros H Hrow.
  apply scrape_row_steps in H as (row1 & row2 & H1 & H2 & ->).
  destruct (fill_fair_keeps row2) as (_ & _ & Hl). rewrite Hl in *.
  assert (E1 : row1 = new_row name img_url team sport prop_name).
  { destruct H1 as [->|(cell & Hne & _)]; [reflexivity|contradiction]. }
  assert (E2 : rd_FanDuel_Line row2 = "NL").
  { destruct H2 as [->|(cell & ->)]; [now rewrite E1|].
    destruct (read_lines_keeps (cell_lines cell) row1) as (_ & _ & ->).
    now rewrite E1. }
  split; [exact E2|].
  apply unreadable_none. left. rewrite Hrow, E2. left.
Qed.

End WithPage.

Section WithRuntime.
Variable float_of_str : string -> result pyfloat.
Variable int_of_str : string -> result Z.
Variable rand : N -> list nat.

(** X20.  For every size from 1 on that [int()] reads from the request,
    [dashboard] answers with slips, that size, and a style that is one of
    power, flex and props. *)
Theorem served_from_size_one (files : list CsvFile) (request : Request) (n : Z) :
  int_of_str (default "6" (arg_size request)) = Ok n -> 1 <= n ->
  exists (slips : list Slip) (style : string),
    dashboard float_of_str int_of_str rand files request = Ok (slips, n, style) /\
    style ∈ ["power"; "flex"; "props"].
Proof.
  intros Hn Hpos. unfold dashboard. rewrite Hn.
  match goal with
  | |- context [get_slips _ _ _ _ ?st] =>
      destruct (get_slips_total float_of_str rand files n st Hpos) as [slips ->];
        exists slips, st
  end.
  split; [reflexivity|].
  destruct (bool_decide (n = 1)); [set_solver|].
  destruct (bool_decide (default "Power" (arg_style request) ∈ _)) eqn:E;
    [now apply bool_decide_eq_true in E|set_solver].
Qed.

End WithRuntime.

Lemma odds_never_even_witness :
  exists row_data : RowData,
    scrape_row as_is decimal_int 0 1 two_cells
      (new_row "A" "a.png" "X - PG" "NBA" "Points") = Some row_data /\
    rd_FD_Over_Odds row_data <> "EVEN" /\ rd_FD_Under_Odds row_data <> "EVEN".
Proof.
  eexists. split; [vm_compute; reflexivity|].
  apply (odds_never_even as_is decimal_int 0 1 two_cells
           "A" "a.png" "X - PG" "NBA" "Points").
  vm_compute. reflexivity.
Defined.

Lemma under_keeps_line_witness :
  rd_FanDuel_Line
    (read_buttons as_is [Some ("U 21.5", "(-120)")]
       (set_over "20.5" "-110" (new_row "A" "a.png" "X - PG" "NBA" "Points")))
  = rd_FanDuel_Line
      (set_over "20.5" "-110" (new_row "A" "a.png" "X - PG" "NBA" "Points")).
Proof.
  apply (under_keeps_line as_is [Some ("U 21.5", "(-120)")]
           (set_over "20.5" "-110" (new_row "A" "a.png" "X - PG" "NBA" "Points"))).
  - simpl. discriminate.
  - repeat constructor.
Defined.

Lemma no_column_no_candidate_witness :
  exists row_data : RowData,
    scrape_row as_is decimal_int (-1) 1 two_cells
      (new_row "C" "c.png" "Z - C" "NBA" "Points") = Some row_data /\
    rd_FanDuel_Line row_data = "NL" /\
    candidate_of decimal_float no_line = None.
Proof.
  eexists. split; [vm_compute; reflexivity|].
  apply (no_column_no_candidate as_is decimal_int decimal_float 1 two_cells
           "C" "c.png" "Z - C" "NBA" "Points").
  - vm_compute. reflexivity.
  - reflexivity.
Defined.

Lemma served_from_size_one_witness :
  exists (slips : list Slip) (style : string),
    dashboard decimal_float decimal_int Samples.first_left
      (Samples.one_file Samples.two_quotes)
      {| arg_style := Some "flex"; arg_size := Some "3" |} = Ok (slips, 3, style) /\
    style ∈ ["power"; "flex"; "props"].
Proof.
  apply (served_from_size_one decimal_float decimal_int Samples.first_left
           (Samples.one_file Samples.two_quotes)
           {| arg_style := Some "flex"; arg_size := Some "3" |} 3).
  - vm_compute. reflexivity.
  - lia.
Defined.

End BridgeFacts.
